(** * A daily news pipeline: crawler, transformer, orchestrator, publisher

    Shallow embedding of the Go services of the repository:

    - [Crawling]     : crawling/main.go        (headline extraction)
    - [Transformer]  : convert-to-markdown     (GPT cleaning and Markdown rendering)
    - [Orchestrator] : auto-push               (fan-out over categories and articles)
    - [S3Upload]     : upload-to-s3            (object key derivation)
    - [Publisher]    : upload-to-github        (listing, download, one-commit upload)
    - [GptApi]       : gpt-api                 (the cleaning service itself)
    - [Regexp]       : the pattern of [cleanANSI] in auto-push

    Remote services (HTTP endpoints, S3, the GitHub Git data API) are not part
    of the repository.  Their answers are taken as arbitrary functions, so
    every statement holds for all possible behaviours of the remote side. *)

From Stdlib Require Import String Ascii ZArith Lia Bool.
From Stdlib Require DecimalString.
From stdpp Require Import base option list strings gmap fin_maps.

Open Scope string_scope.
Open Scope list_scope.

(** ** Go values shared by all services *)

Module Go.

(** A Go pair [(value, error)] in which exactly one side is meaningful. *)
Inductive Result (A : Type) : Type :=
| Ok (a : A)
| Err (msg : string).
Arguments Ok {A} a.
Arguments Err {A} msg.

Definition is_ok {A} (r : Result A) : bool :=
  match r with Ok _ => true | Err _ => false end.

(** A Go call either returns or aborts the goroutine (and the process):
    [Panics] for a run-time panic, [Exits] for [log.Fatalf]. *)
Inductive Outcome (A : Type) : Type :=
| Returns (a : A)
| Panics (msg : string)
| Exits (msg : string).
Arguments Returns {A} a.
Arguments Panics {A} msg.
Arguments Exits {A} msg.

(** [strings.HasPrefix]: [len(s) >= len(prefix) && s[:len(prefix)] == prefix] *)
Fixpoint HasPrefix (s p : string) {struct p} : bool :=
  match p, s with
  | EmptyString, _ => true
  | String _ _, EmptyString => false
  | String c p', String d s' => Ascii.eqb c d && HasPrefix s' p'
  end.

(** [strings.Contains s substr]: some suffix of [s] starts with [substr]. *)
Fixpoint Contains (s substr : string) : bool :=
  if HasPrefix s substr then true
  else match s with
       | EmptyString => false
       | String _ s' => Contains s' substr
       end.

(** [s[n:]] for [n <= len(s)] *)
Fixpoint drop_bytes (n : nat) (s : string) : string :=
  match n, s with
  | O, _ => s
  | S n', String _ s' => drop_bytes n' s'
  | S _, EmptyString => EmptyString
  end.

(** [strings.TrimPrefix]:
    [if HasPrefix(s, prefix) { return s[len(prefix):] }; return s] *)
Definition TrimPrefix (s p : string) : string :=
  if HasPrefix s p then drop_bytes (String.length p) s else s.

(** [strconv.Itoa] on a non-negative [int] (a slice index). *)
Definition Itoa (i : nat) : string :=
  DecimalString.NilZero.string_of_uint (Nat.to_uint i).

(** [strings.Split(s, "/")] *)
Fixpoint split_slash (s : string) : list string :=
  match s with
  | EmptyString => [EmptyString]
  | String c s' =>
      if Ascii.eqb c "/"%char then EmptyString :: split_slash s'
      else match split_slash s' with
           | h :: t => String c h :: t
           | [] => [String c EmptyString]
           end
  end.

(** [path.Clean], element by element.  [out] is the list of elements kept so
    far.  Empty and [.] elements are dropped; [..] removes the last kept
    element when there is one that is not itself [..], is dropped at the root
    of a rooted path, and is kept otherwise. *)
Definition clean_step (rooted : bool) (out : list string) (elem : string)
    : list string :=
  if String.eqb elem "" || String.eqb elem "." then out
  else if String.eqb elem ".." then
    match last out with
    | Some x =>
        if String.eqb x ".." then (if rooted then out else out ++ [elem])
        else removelast out
    | None => if rooted then out else out ++ [elem]
    end
  else out ++ [elem].

Definition Clean (path : string) : string :=
  match path with
  | EmptyString => "."
  | String c _ =>
      let rooted := Ascii.eqb c "/"%char in
      let out := fold_left (clean_step rooted) (split_slash path) [] in
      if rooted then "/" +:+ String.concat "/" out
      else match out with
           | [] => "."
           | _ => String.concat "/" out
           end
  end.

(** [path.Join]: leading empty elements are ignored, the rest is joined
    with slashes and cleaned; all empty gives the empty string. *)
Fixpoint Join (elem : list string) : string :=
  match elem with
  | [] => ""
  | e :: rest =>
      if String.eqb e "" then Join rest
      else Clean (String.concat "/" elem)
  end.

(** A string without a slash, and a path element that [Clean] keeps as it
    is: not empty, not [.] or [..], and without a slash. *)
Fixpoint slash_free (s : string) : bool :=
  match s with
  | EmptyString => true
  | String c s' => negb (Ascii.eqb c "/"%char) && slash_free s'
  end.

Definition plain_elem (s : string) : bool :=
  negb (String.eqb s "") && negb (String.eqb s ".") && negb (String.eqb s "..")
  && slash_free s.

(** A string of the shape [yyyy-MM-dd], as [Format("2006-01-02")] gives. *)
Definition is_digit (c : ascii) : bool :=
  (48 <=? nat_of_ascii c)%nat && (nat_of_ascii c <=? 57)%nat.

Definition is_date (d : string) : bool :=
  match list_ascii_of_string d with
  | [y1; y2; y3; y4; h1; m1; m2; h2; d1; d2] =>
      forallb is_digit [y1; y2; y3; y4; m1; m2; d1; d2]
      && Ascii.eqb h1 "-"%char && Ascii.eqb h2 "-"%char
  | _ => false
  end.

(** [%d] of a status code *)
Definition Itoz (z : Z) : string :=
  DecimalString.NilZero.string_of_int (Z.to_int z).

(** A double quote, and a quoted JSON string without escapes. *)
Definition dquote : string := String (ascii_of_nat 34) EmptyString.
Definition quoted (s : string) : string := dquote +:+ s +:+ dquote.

(** HTTP status codes used by the handlers. *)
Definition StatusOK : Z := 200.
Definition StatusBadRequest : Z := 400.
Definition StatusInternalServerError : Z := 500.

(** [events.APIGatewayProxyResponse], restricted to the fields the handlers set. *)
Record APIGatewayProxyResponse : Type := mkResponse {
  StatusCode : Z;
  Body : string;
  Headers : list (string * string)
}.

(** The outcome of [client.Do(req)] followed by [io.ReadAll(res.Body)]:
    the transport can fail, and otherwise there is a status code and a body
    that can be read ([Some]) or not ([None]). *)
Inductive HttpResult : Type :=
| TransportError (msg : string)
| HttpResponse (status : Z) (body : option string).

End Go.
Import Go.

(** ** crawling/main.go *)

Module Crawling.

Section Headlines.

(** Package variables read from the environment in [init]. *)
Variables BASE_URL BASE_URL_DETAIL : string.

Definition isValidNewsLink (link : string) : bool :=
  (0 <? String.length link)%nat
  && Contains link BASE_URL_DETAIL
  && negb (Contains link "/comment/").

(** The selection [doc.Find("ul.sa_list li a")] is the list of matched
    anchors in document order; [s.Attr("href")] is [Some v] when the
    attribute exists.  goquery itself is a library. *)
Definition Selection : Type := list (option string).

(** [seen[link]] on a [map[string]bool]: absent keys read as [false]. *)
Definition seen_get (seen : gmap string bool) (link : string) : bool :=
  default false (seen !! link).

(** Lines 85-87: [if link[0] == '/' { link = BASE_URL + link }].
    [link[0]] on the empty string is an index out of range. *)
Definition absolute (link : string) : option string :=
  match link with
  | EmptyString => None
  | String c _ => Some (if Ascii.eqb c "/"%char then BASE_URL +:+ link else link)
  end.

(** The callback of [EachWithBreak], iterated over the selection. The
    callback returning [false] stops the iteration. *)
Fixpoint EachWithBreak (sel : Selection) (links : list string)
    (seen : gmap string bool) : Outcome (list string) :=
  match sel with
  | [] => Returns links
  | s :: rest =>
      if (5 <=? length links)%nat then Returns links
      else match s with
           | None => EachWithBreak rest links seen
           | Some href =>
               match absolute href with
               | None => Panics "runtime error: index out of range [0] with length 0"
               | Some link =>
                   if isValidNewsLink link && negb (seen_get seen link)
                   then EachWithBreak rest (links ++ [link]) (<[link := true]> seen)
                   else EachWithBreak rest links seen
               end
           end
  end.

Definition ScrapeHeadlines (doc : Selection) : Outcome (Result (list string)) :=
  match EachWithBreak doc [] ∅ with
  | Returns links =>
      if (length links =? 0)%nat then Returns (Err "no headlines found")
      else Returns (Ok links)
  | Panics m => Panics m
  | Exits m => Exits m
  end.

(** A valid link "found in the document": an anchor whose [href], made
    absolute, passes [isValidNewsLink]. *)
Definition valid_anchor (s : option string) : bool :=
  match s with
  | Some href =>
      match absolute href with
      | Some link => isValidNewsLink link
      | None => false
      end
  | None => false
  end.

(** What the loop keeps true of [links] and [seen]: the links are pairwise
    distinct and valid, and [seen] holds exactly the links. *)
Definition loop_inv (links : list string) (seen : gmap string bool) : Prop :=
  NoDup links
  /\ Forall (fun l => isValidNewsLink l = true) links
  /\ (forall l, seen_get seen l = true <-> l ∈ links).

End Headlines.

(** [contains] (lines 110-112):
    [len(s) >= len(substr) && len(substr) > 0 &&
     (len(s)-len(substr) >= 0 && s[len(s)-len(substr):] == substr)] *)
Definition contains (s substr : string) : bool :=
  (String.length substr <=? String.length s)%nat
  && (0 <? String.length substr)%nat
  && ((0 <=? Z.of_nat (String.length s) - Z.of_nat (String.length substr))%Z
      && String.eqb (drop_bytes (String.length s - String.length substr) s) substr).

Record NewsArticle : Type := mkArticle {
  Title : string;
  Content : string;
  Date : string
}.

(** What the code reads from a parsed page: the anchors of the headline
    list, and the texts of the headline, of the article body once its
    [span]s are removed, and of the date stamp. *)
Record Document : Type := mkDocument {
  headline_anchors : Selection;
  headline : string;
  dic_area : string;
  datestamp : string
}.

(** The two places where a page is fetched. *)
Inductive Fetch : Type :=
| SectionPage
| ArticlePage.

(** [http.DefaultClient.Do] followed by [goquery.NewDocumentFromReader]. *)
Inductive FetchResult : Type :=
| FetchFailed (msg : string)
| Fetched (status : Z) (doc : Result Document).

Section Service.

Variables BASE_URL BASE_URL_DETAIL : string.

(** [http.NewRequest], the HTTP client with the HTML parser,
    [strings.TrimSpace], [json.Marshal], and the order in which the
    articles arrive on the [results] channel. *)
Variable NewRequest : string -> string -> Result unit.
Variable Do : Fetch -> string -> FetchResult.
Variable TrimSpace : string -> string.
Variable Marshal : list NewsArticle -> Result string.
Variable arrival : list NewsArticle -> list NewsArticle.

(** [FetchHTML].  The error of [http.NewRequest] is dropped (line 51); when
    it fails the request is [nil] and [req.Header.Set] dereferences it. *)
Definition FetchHTML (at_ : Fetch) (url : string) : Outcome (Result Document) :=
  match NewRequest "GET" url with
  | Err _ => Panics "runtime error: invalid memory address or nil pointer dereference"
  | Ok _ =>
      Returns
        match Do at_ url with
        | FetchFailed err => Err ("failed to fetch URL: " +:+ err)
        | Fetched status doc =>
            if negb (status =? StatusOK)%Z
            then Err ("unexpected status code: " +:+ Itoz status)
            else match doc with
                 | Err err => Err ("failed to parse HTML: " +:+ err)
                 | Ok doc => Ok doc
                 end
        end
  end.

(** [ScrapeArticle]: the three texts are tested before they are trimmed. *)
Definition ScrapeArticle (url : string) : Outcome (Result NewsArticle) :=
  match FetchHTML ArticlePage url with
  | Returns (Err err) => Returns (Err err)
  | Returns (Ok doc) =>
      let title := headline doc in
      let content := dic_area doc in
      let date := datestamp doc in
      if String.eqb title "" || String.eqb content "" || String.eqb date ""
      then Returns (Err "failed to extract title, content, or date")
      else Returns (Ok (mkArticle (TrimSpace title) (TrimSpace content)
                                  (TrimSpace date)))
  | Panics m => Panics m
  | Exits m => Exits m
  end.

(** Lines 182-202: one goroutine per link sends its article to the channel
    unless [ScrapeArticle] failed; a panic in a goroutine ends the process.
    The articles are listed here in link order. *)
Fixpoint scrape_links (links : list string) : Outcome (list NewsArticle) :=
  match links with
  | [] => Returns []
  | link :: rest =>
      match ScrapeArticle link with
      | Returns r =>
          match scrape_links rest with
          | Returns articles =>
              Returns match r with
                      | Ok article => article :: articles
                      | Err _ => articles
                      end
          | Panics m => Panics m
          | Exits m => Exits m
          end
      | Panics m => Panics m
      | Exits m => Exits m
      end
  end.

Definition error_body (text : string) : string :=
  "{" +:+ quoted "error" +:+ ": " +:+ quoted text +:+ "}".

(** [Handler]; [url] is [request.QueryStringParameters["url"]].  When no
    article was scraped, the [err] that is printed is the one of
    [ScrapeHeadlines], which is [nil] there. *)
Definition Handler (url : string)
    : Outcome (APIGatewayProxyResponse * option string) :=
  if String.eqb url "" then
    Returns (mkResponse StatusBadRequest (error_body "Missing 'url' parameter") [],
             None)
  else
    match FetchHTML SectionPage url with
    | Panics m => Panics m
    | Exits m => Exits m
    | Returns (Err err) =>
        Returns (mkResponse StatusInternalServerError
                   (error_body ("Error fetching section HTML: " +:+ err)) [], None)
    | Returns (Ok sectionDoc) =>
        match ScrapeHeadlines BASE_URL BASE_URL_DETAIL (headline_anchors sectionDoc) with
        | Panics m => Panics m
        | Exits m => Exits m
        | Returns (Err err) =>
            Returns (mkResponse StatusInternalServerError
                       (error_body ("Error scraping headlines: " +:+ err)) [], None)
        | Returns (Ok headlineLinks) =>
            match scrape_links headlineLinks with
            | Panics m => Panics m
            | Exits m => Exits m
            | Returns scraped =>
                let articles := arrival scraped in
                if (length articles =? 0)%nat then
                  Returns (mkResponse StatusInternalServerError
                             (error_body "Error scraping article: <nil>") [], None)
                else
                  match Marshal articles with
                  | Err err =>
                      Returns (mkResponse StatusInternalServerError
                                 (error_body ("Failed to encoding JSON: " +:+ err)) [],
                               None)
                  | Ok responseBody =>
                      Returns (mkResponse StatusOK responseBody
                                 [("Content-Type", "application/json")], None)
                  end
            end
        end
    end.

End Service.

End Crawling.

(** ** convert-to-markdown/main.go *)

Module Transformer.

Record NewsArticle : Type := mkArticle {
  Title : string;
  Content : string;
  Date : string
}.

(** [GPTRequest{Content, Prompt}] *)
Record GPTRequest : Type := mkGPTRequest {
  req_Content : string;
  req_Prompt : string
}.

(** The four places where [Handler] calls [FetchGPT]. *)
Inductive CallSite : Type :=
| ContentStage1
| ContentStage2
| ContentStage3
| DateStage.

(** The fixed instruction of the date goroutine. *)
Definition DATE_PROMPT : string :=
  "다음 텍스트에서 날짜가 여러개 있으면 앞에 것만 선택해서 한 날짜만 남게 해주고, 'yyyy년 mm월 dd일 hh시 mm분' 포맷으로 수정해주세요. 예를 들어 '2025년 01월 04일 오후 3시 25분2025년 01월 04일 오후 4시 08분' 이런식으로 있다면 '2025년 01월 04일 오후 3시 25분'만 남게 해주세요.".

(** [ConvertToMarkdown]: three [Sprintf]s and a final one joining them. *)
Definition ConvertToMarkdown (article : NewsArticle) : string :=
  let title := "# **제목: " +:+ Title article +:+ "**" in
  let content := "내용: " +:+ Content article in
  let date := "**날짜: " +:+ Date article +:+ "**" in
  title +:+ String "010" (String "010" "  ") +:+ content
        +:+ String "010" (String "010" "  ") +:+ date.

Section Service.

(** The process environment, [http.NewRequest] (which rejects a malformed
    URL), the cleaning service's answer to each of the four calls, and
    [json.Unmarshal] into a [NewsArticle]. *)
Variable Getenv : string -> string.
Variable NewRequest : string -> string -> Result unit.
Variable Do : CallSite -> string -> GPTRequest -> HttpResult.
Variable Unmarshal : string -> option NewsArticle.

(** [FetchGPT].  [json.Marshal] of a struct of two strings cannot fail, so
    the request is handed to [Do] as it is.  The extra argument [site] names
    the call, so that the service may answer each call differently. *)
Definition FetchGPT (site : CallSite) (gptRequest : GPTRequest) : Result string :=
  let serverURL := Getenv "GPT_SERVER" in
  match NewRequest "POST" serverURL with
  | Err e => Err ("failed to create HTTP request: " +:+ e)
  | Ok _ =>
      match Do site serverURL gptRequest with
      | TransportError e => Err ("failed to send HTTP request: " +:+ e)
      | HttpResponse status body =>
          if negb (status =? StatusOK)%Z
          then Err ("GPT server returned status code " +:+ Itoz status)
          else match body with
               | None => Err "failed to decode GPT response: read error"
               | Some gptResponse => Ok gptResponse
               end
      end
  end.

(** A goroutine body: the [FetchGPT] calls it made, in program order, and
    [Some v] when it ran to its last statement with the value [v] to assign,
    [None] when it logged an error and returned early. *)
Definition Routine (A : Type) : Type := list (CallSite * GPTRequest) * option A.

Definition rret {A} (a : A) : Routine A := ([], Some a).

Definition rbind {A B} (m : Routine A) (k : A -> Routine B) : Routine B :=
  match m with
  | (log, None) => (log, None)
  | (log, Some a) => let '(log', b) := k a in (log ++ log', b)
  end.

Notation "x ←! m ; k" := (rbind m (fun x => k))
  (at level 100, m at next level, right associativity, only parsing).

(** [v, err := FetchGPT(req); if err != nil { log.Printf(...); return }] *)
Definition fetch_or_return (site : CallSite) (req : GPTRequest) : Routine string :=
  ([(site, req)],
   match FetchGPT site req with
   | Ok v => Some v
   | Err _ => None
   end).

(** First goroutine (lines 100-120).  [cleanedContent] is assigned three
    times; every request is built from [article.Content]. *)
Definition contentRoutine (article : NewsArticle) : Routine string :=
  cleanedContent ←! fetch_or_return ContentStage1
    (mkGPTRequest (Content article) (Getenv "PROMPT_CONTENT_1"));
  cleanedContent ←! fetch_or_return ContentStage2
    (mkGPTRequest (Content article) (Getenv "PROMPT_CONTENT_2"));
  cleanedContent ←! fetch_or_return ContentStage3
    (mkGPTRequest (Content article) (Getenv "PROMPT_CONTENT_3"));
  rret cleanedContent.

(** Second goroutine (lines 121-129). *)
Definition dateRoutine (article : NewsArticle) : Routine string :=
  cleanedDate ←! fetch_or_return DateStage
    (mkGPTRequest (Date article) DATE_PROMPT);
  rret cleanedDate.

(** The state of [article] after [wg.Wait()].  The variable is shared by the
    two goroutines, but the first reads and writes only [Content] and the
    second only [Date]: each sees its field as the handler received it until
    its own assignment, which it makes only when it reached its last line. *)
Definition transformed (article : NewsArticle) : NewsArticle :=
  {| Title := Title article;
     Content := default (Content article) (snd (contentRoutine article));
     Date := default (Date article) (snd (dateRoutine article)) |}.

(** What one invocation did: the response, the Go [error] returned next to
    it, and the calls of the two goroutines. *)
Record Run : Type := mkRun {
  response : APIGatewayProxyResponse;
  error : option string;
  contentCalls : list (CallSite * GPTRequest);
  dateCalls : list (CallSite * GPTRequest)
}.

Definition Handler (requestBody : string) : Run :=
  match Unmarshal requestBody with
  | None =>
      mkRun (mkResponse StatusBadRequest
               ("{" +:+ quoted "error" +:+ ": " +:+ quoted "Invalid JSON input" +:+ "}") [])
            None [] []
  | Some article =>
      let markdown := ConvertToMarkdown (transformed article) in
      if (String.length markdown =? 0)%nat
      then mkRun (mkResponse StatusInternalServerError
                    ("{" +:+ quoted "error" +:+ ": " +:+ quoted "No articles processed" +:+ "}") [])
                 None (fst (contentRoutine article)) (fst (dateRoutine article))
      else mkRun (mkResponse StatusOK markdown [("Content-Type", "text/plain")])
                 None (fst (contentRoutine article)) (fst (dateRoutine article))
  end.

(** The three requests of the content goroutine and the request of the date
    goroutine, as the handler builds them from the article it received. *)
Definition stage1 (article : NewsArticle) : CallSite * GPTRequest :=
  (ContentStage1, mkGPTRequest (Content article) (Getenv "PROMPT_CONTENT_1")).
Definition stage2 (article : NewsArticle) : CallSite * GPTRequest :=
  (ContentStage2, mkGPTRequest (Content article) (Getenv "PROMPT_CONTENT_2")).
Definition stage3 (article : NewsArticle) : CallSite * GPTRequest :=
  (ContentStage3, mkGPTRequest (Content article) (Getenv "PROMPT_CONTENT_3")).
Definition dateStage (article : NewsArticle) : CallSite * GPTRequest :=
  (DateStage, mkGPTRequest (Date article) DATE_PROMPT).

(** The answer to a recorded call. *)
Definition fetch (c : CallSite * GPTRequest) : Result string :=
  FetchGPT (fst c) (snd c).

End Service.

End Transformer.

(** ** auto-push/main.go *)

Module Orchestrator.

Record NewsArticle : Type := mkArticle {
  Title : string;
  Content : string;
  Date : string
}.

(** The answer of the store uploader; it is decoded only to be logged. *)
Record S3Response : Type := mkS3Response {
  Message : string;
  Filename : string
}.

(** Every HTTP call of one invocation has its own identity: the goroutine
    that makes it.  A category goroutine calls the extraction service once;
    the goroutine of article [i] of a category calls the converter and then
    the store uploader; the handler itself calls the publisher. *)
Inductive CallId : Type :=
| ScrapeCall (category : string)
| ConvertCall (category : string) (i : nat)
| S3Call (category : string) (i : nat)
| GitHubCall.

(** What the code puts into an [http.Request]. *)
Record HttpRequest : Type := mkRequest {
  Method : string;
  URL : string;
  Query : list (string * string);
  Header : list (string * string);
  ReqBody : string
}.

(** A request handed to [httpClient.Do]. *)
Definition Event : Type := CallId * HttpRequest.

Definition event_category (ev : Event) : option string :=
  match fst ev with
  | ScrapeCall c => Some c
  | ConvertCall c _ => Some c
  | S3Call c _ => Some c
  | GitHubCall => None
  end.

(** The events of a log that belong to category [c]. *)
Definition events_of (c : string) (log : list Event) : list Event :=
  filter (fun ev => event_category ev = Some c) log.

(** The category mapping of [Handler] (lines 155-161). *)
Definition urls : gmap string string :=
  <["politics" := "https://news.naver.com/section/100"]>
  (<["economy" := "https://news.naver.com/section/101"]>
  (<["society" := "https://news.naver.com/section/102"]>
  (<["it" := "https://news.naver.com/section/105"]>
  (<["world" := "https://news.naver.com/section/104"]> ∅)))).

(** What one invocation did. *)
Record Run : Type := mkRun {
  response : APIGatewayProxyResponse;
  error : option string;
  events : list Event
}.

Section Service.

(** The environment and the library calls: [os.Getenv], [url.QueryUnescape],
    [http.NewRequest], [httpClient.Do] with [io.ReadAll] (the answer may
    depend on the call's identity and on the request), the JSON codec,
    [utf8.Valid] and the regular expression of [cleanANSI]. *)
Variable Getenv : string -> string.
Variable QueryUnescape : string -> Result string.
Variable NewRequest : string -> string -> Result unit.
Variable Do : CallId -> HttpRequest -> HttpResult.
Variable Marshal : NewsArticle -> Result string.
Variable UnmarshalArticles : string -> Result (list NewsArticle).
Variable utf8_Valid : string -> bool.
Variable ReplaceAllANSI : string -> string.

(** The order in which the requests of goroutines that run side by side
    reach the network: [interleave logs] merges the logs of the goroutines
    joined by one [sync.WaitGroup]. *)
Variable interleave : list (list Event) -> list Event.

(** [Scrape]; [at_] names the call. *)
Definition Scrape (at_ : CallId) (url : string)
    : Result (list NewsArticle) * list Event :=
  match QueryUnescape (Getenv "CRAWLING_SERVER") with
  | Err e => (Err ("failed to get server url: " +:+ e), [])
  | Ok serverURL =>
      match NewRequest "GET" serverURL with
      | Err e => (Err ("failed to create HTTP request: " +:+ e), [])
      | Ok _ =>
          let req := mkRequest "GET" serverURL [("url", url)] [] "" in
          (match Do at_ req with
           | TransportError e => Err ("failed to send HTTP request: " +:+ e)
           | HttpResponse status body =>
               if negb (status =? StatusOK)%Z
               then Err ("server returned status code " +:+ Itoz status)
               else match body with
                    | None => Err "failed to read response body: read error"
                    | Some body =>
                        match UnmarshalArticles body with
                        | Err e => Err ("Invalid JSON input: " +:+ e)
                        | Ok articles => Ok articles
                        end
                    end
           end, [(at_, req)])
      end
  end.

Definition ConvertToMarkdown (at_ : CallId) (article : NewsArticle)
    : Result string * list Event :=
  match QueryUnescape (Getenv "CONVERT_SERVER") with
  | Err e => (Err ("failed to get server url: " +:+ e), [])
  | Ok serverURL =>
      match Marshal article with
      | Err e => (Err ("failed to article request: " +:+ e), [])
      | Ok reqBody =>
          match NewRequest "POST" serverURL with
          | Err e => (Err ("failed to create HTTP request: " +:+ e), [])
          | Ok _ =>
              let req := mkRequest "POST" serverURL []
                           [("Content-Type", "application/json")] reqBody in
              (match Do at_ req with
               | TransportError e => Err ("failed to send HTTP request: " +:+ e)
               | HttpResponse status body =>
                   if negb (status =? StatusOK)%Z
                   then Err ("ConvertToMarkdown server returned status code "
                             +:+ Itoz status)
                   else match body with
                        | None => Err "failed to read response body: read error"
                        | Some resBody => Ok resBody
                        end
               end, [(at_, req)])
          end
      end
  end.

Definition cleanANSI (input : string) : string := ReplaceAllANSI input.

(** [UploadToS3] returns nothing.  [[]byte(string(markdown))] gives back the
    same bytes.  After [httpClient.Do] every branch (transport error, status,
    body, JSON of the [S3Response]) only writes to the process log, so the
    request is all that is kept. *)
Definition UploadToS3 (at_ : CallId) (markdown category : string) (i : nat)
    : list Event :=
  let markdown := if negb (utf8_Valid markdown) then markdown else markdown in
  let cleanedMarkdown := cleanANSI markdown in
  match QueryUnescape (Getenv "UPLOAD_TO_S3_SEVER") with
  | Err _ => []
  | Ok serverURL =>
      match NewRequest "POST" serverURL with
      | Err _ => []
      | Ok _ =>
          let category := category +:+ "_" +:+ Itoa i in
          let req := mkRequest "POST" serverURL []
                       [("x-category-sniij", category)] cleanedMarkdown in
          [(at_, req)]
      end
  end.

(** [UploadToGitHub]: as above, nothing is returned. *)
Definition UploadToGitHub : list Event :=
  match QueryUnescape (Getenv "UPLOAD_TO_GITHUB_SERVER") with
  | Err _ => []
  | Ok serverURL =>
      match NewRequest "GET" serverURL with
      | Err _ => []
      | Ok _ => [(GitHubCall, mkRequest "GET" serverURL [] [] "")]
      end
  end.

(** The goroutine started for article [i] (lines 212-223). *)
Definition articleRoutine (article : NewsArticle) (category : string) (i : nat)
    : list Event :=
  let '(r, log) := ConvertToMarkdown (ConvertCall category i) article in
  match r with
  | Err _ => log
  | Ok markdown => log ++ UploadToS3 (S3Call category i) markdown category i
  end.

(** [processArticles]: one goroutine per article, then [wg.Wait()]. *)
Definition processArticles (url category : string) : list Event :=
  let '(r, log) := Scrape (ScrapeCall category) url in
  match r with
  | Err _ => log
  | Ok articles =>
      log ++ interleave
               (imap (fun i article => articleRoutine article category i) articles)
  end.

(** The fan-out of [Handler] and [HandlerTest] (lines 163-171 and 186-194):
    one goroutine per entry of the mapping, then [wg.Wait()]. *)
Definition RunAll (categories : gmap string string) : list Event :=
  interleave
    (map (fun '(category, url) => processArticles url category)
         (map_to_list categories)).

Definition Handler : Run :=
  let fanout := RunAll urls in
  let publish := UploadToGitHub in
  mkRun (mkResponse StatusOK "" []) None (fanout ++ publish).

End Service.

(** The category and the article index that a call identity names. *)
Definition id_category (id : CallId) : option string :=
  match id with
  | ScrapeCall c => Some c
  | ConvertCall c _ => Some c
  | S3Call c _ => Some c
  | GitHubCall => None
  end.

Definition id_index (id : CallId) : option nat :=
  match id with
  | ConvertCall _ i => Some i
  | S3Call _ i => Some i
  | _ => None
  end.

End Orchestrator.

(** ** upload-to-s3/main.go *)

Module S3Upload.

(** The object key of [LambdaHandler]: [fmt.Sprintf("news/%s/%s_%s.md", ...)]
    with two readings of the clock and the [x-category-sniij] header. *)
Definition filename (date1 date2 category : string) : string :=
  "news/" +:+ date1 +:+ "/" +:+ date2 +:+ "_" +:+ category +:+ ".md".

(** What [LambdaHandler] reads of the [events.APIGatewayProxyRequest]. *)
Record Request : Type := mkRequest {
  req_Headers : gmap string string;
  req_IsBase64Encoded : bool;
  req_Body : string
}.

Record PutObjectInput : Type := mkPutObjectInput {
  Bucket : string;
  Key : string;
  PutBody : string;
  ContentType : string
}.

(** What one invocation did: how it ended and what it asked S3 to store. *)
Record Run : Type := mkRun {
  outcome : Outcome (APIGatewayProxyResponse * option string);
  puts : list PutObjectInput
}.

Section Service.

(** The environment, [base64.StdEncoding.DecodeString], AWS configuration
    loading, [PutObject], and the two readings of the clock in [filename],
    each formatted with layout [2006-01-02]. *)
Variable Getenv : string -> string.
Variable DecodeString : string -> Result string.
Variable LoadDefaultConfig : string -> Result unit.
Variable PutObject : PutObjectInput -> Result unit.
Variables now1 now2 : string.

(** [S3Uploader.Upload] *)
Definition Upload (bucket key content : string) : Result unit * list PutObjectInput :=
  let input := mkPutObjectInput bucket key content "text/markdown" in
  (PutObject input, [input]).

Definition LambdaHandler (request : Request) : Run :=
  match req_Headers request !! "x-category-sniij" with
  | None => mkRun (Exits "failed to get x-category-sniij") []
  | Some category =>
      match (if req_IsBase64Encoded request
             then DecodeString (req_Body request)
             else Ok (req_Body request)) with
      | Err _ =>
          mkRun (Returns (mkResponse 400
                            ("{" +:+ quoted "error" +:+ ": "
                             +:+ quoted "Invalid Base64 encoded request body" +:+ "}")
                            [], None)) []
      | Ok markdownContent =>
          if (String.length markdownContent =? 0)%nat then
            mkRun (Returns (mkResponse 400
                              ("{" +:+ quoted "error" +:+ ": "
                               +:+ quoted "Request body is empty" +:+ "}") [], None)) []
          else
            match LoadDefaultConfig "ap-northeast-2" with
            | Err err => mkRun (Exits ("failed to load AWS config: " +:+ err)) []
            | Ok _ =>
                let key := filename now1 now2 category in
                let '(r, sent) := Upload (Getenv "S3_BUCKET_NAME") key markdownContent in
                match r with
                | Err err =>
                    mkRun (Returns (mkResponse 500
                                      ("{" +:+ quoted "error" +:+ ": "
                                       +:+ quoted ("Failed to upload file: " +:+ err)
                                       +:+ "}") [], None)) sent
                | Ok _ =>
                    mkRun (Returns (mkResponse 200
                                      ("{" +:+ quoted "message" +:+ ": "
                                       +:+ quoted "File uploaded successfully" +:+ ", "
                                       +:+ quoted "filename" +:+ ": " +:+ quoted key
                                       +:+ "}") [], None)) sent
                end
            end
      end
  end.

End Service.

End S3Upload.

(** ** upload-to-github/main.go *)

Module Publisher.

(** *** The GitHub Git data API, as the uploader sees it *)

Record Reference : Type := mkReference {
  Ref : string;
  Object_SHA : string
}.

Record TreeEntry : Type := mkTreeEntry {
  Path : string;
  Type_ : string;
  Content : string;
  Mode : string
}.

Record Tree : Type := mkTree {
  Tree_SHA : string;
  Entries : list TreeEntry
}.

(** A commit to be created has no SHA yet: the field is left empty. *)
Record Commit : Type := mkCommit {
  Commit_SHA : string;
  Message : string;
  Commit_Tree : Tree;
  Parents : list string
}.

(** The five remote calls, with their arguments. *)
Inductive GitCall : Type :=
| CallGetRef (owner repo ref : string)
| CallGetTree (owner repo sha : string) (recursive : bool)
| CallCreateTree (owner repo baseTree : string) (entries : list TreeEntry)
| CallCreateCommit (owner repo : string) (commit : Commit)
| CallUpdateRef (owner repo : string) (ref : Reference) (force : bool).

(** The entry lists handed to [CreateTree] in a sequence of calls. *)
Definition created_entries (calls : list GitCall) : list (list TreeEntry) :=
  omap (fun c => match c with
                 | CallCreateTree _ _ _ entries => Some entries
                 | _ => None
                 end) calls.

Definition is_UpdateRef (c : GitCall) : bool :=
  match c with
  | CallUpdateRef _ _ _ _ => true
  | _ => false
  end.

(** The hosting service: a state, and the answer and next state of each
    call.  [branch_head] is the commit that [heads/main] points to. *)
Record GitService (State : Type) : Type := mkGitService {
  GetRef : string -> string -> string -> State -> Result Reference * State;
  GetTree : string -> string -> string -> bool -> State -> Result Tree * State;
  CreateTree : string -> string -> string -> list TreeEntry -> State
               -> Result Tree * State;
  CreateCommit : string -> string -> Commit -> State -> Result Commit * State;
  UpdateRef : string -> string -> Reference -> bool -> State
              -> Result Reference * State;
  branch_head : State -> string
}.
Arguments GetRef {State}.
Arguments GetTree {State}.
Arguments CreateTree {State}.
Arguments CreateCommit {State}.
Arguments UpdateRef {State}.
Arguments branch_head {State}.

(** Of the five calls only [UpdateRef] moves the branch. *)
Record OnlyUpdateRefMovesHead {State} (git : GitService State) : Prop := {
  GetRef_head : forall o r n s, branch_head git (snd (GetRef git o r n s)) = branch_head git s;
  GetTree_head : forall o r h b s, branch_head git (snd (GetTree git o r h b s)) = branch_head git s;
  CreateTree_head : forall o r h es s,
    branch_head git (snd (CreateTree git o r h es s)) = branch_head git s;
  CreateCommit_head : forall o r c s,
    branch_head git (snd (CreateCommit git o r c s)) = branch_head git s
}.

(** The step of [UploadFiles] that failed, read off the error it returns. *)
Inductive Step : Type :=
| StepGetRef
| StepGetTree
| StepCreateTree
| StepCreateCommit
| StepUpdateRef.

(** An error of [UploadFiles]: the failed step and the wrapped message. *)
Definition UploadError : Type := Step * string.

Definition error_text (e : UploadError) : string :=
  match e with
  | (StepGetRef, m) => "failed to get HEAD reference: " +:+ m
  | (StepGetTree, m) => "failed to get base tree: " +:+ m
  | (StepCreateTree, m) => "failed to create tree: " +:+ m
  | (StepCreateCommit, m) => "failed to create commit: " +:+ m
  | (StepUpdateRef, m) => "failed to update HEAD reference: " +:+ m
  end.

(** *** S3 *)

(** One [paginator.NextPage]: the keys of [page.Contents], or an error. *)
Definition Page : Type := Result (list string).

(** The keys of a page that was fetched. *)
Definition page_keys (p : Page) : list string :=
  match p with
  | Ok contents => contents
  | Err _ => []
  end.

(** The loop of [ListFiles].  The paginator has more pages as long as the
    listing has pages left. *)
Fixpoint ListFiles_loop (paginator : list Page) (files : list string)
    : Result (list string) :=
  match paginator with
  | [] => Ok files
  | page :: paginator' =>
      match page with
      | Err err => Err ("failed to list files: " +:+ err)
      | Ok contents => ListFiles_loop paginator' (files ++ contents)
      end
  end.

Section Service.

Context {State : Type}.

(** The environment, AWS configuration loading, the clock (already formatted
    with layout [2006-01-02]), the pages S3 returns for a prefix, [GetObject]
    with the result of reading the body, the hosting service, and the order
    in which [range] visits a Go map. *)
Variable Getenv : string -> string.
Variable LoadDefaultConfig : string -> Result unit.
Variable today : string.
Variable ListObjectsV2 : string -> string -> list Page.
Variable GetObject : string -> string -> Result (Result string).
Variable git : GitService State.
Variable rangeMap : gmap string string -> list (string * string).

Definition ListFiles (bucket prefix : string) : Result (list string) :=
  ListFiles_loop (ListObjectsV2 bucket prefix) [].

Definition DownloadFile (bucket key : string) : Result string :=
  match GetObject bucket key with
  | Err err => Err ("failed to download file from S3: " +:+ err)
  | Ok body =>
      match body with
      | Err err => Err ("failed to read S3 file content: " +:+ err)
      | Ok bytes => Ok bytes
      end
  end.

(** A remote call inside [UploadFiles]: it is recorded, the state moves on,
    and an error ends the function. *)
Definition Git (A : Type) : Type :=
  State * list GitCall -> (UploadError + A) * (State * list GitCall).

Definition gret {A} (a : A) : Git A := fun st => (inr a, st).

Definition gbind {A B} (m : Git A) (k : A -> Git B) : Git B :=
  fun st =>
    match m st with
    | (inl e, st') => (inl e, st')
    | (inr a, st') => k a st'
    end.

Definition remote {A} (step : Step) (c : GitCall)
    (op : State -> Result A * State) : Git A :=
  fun '(s, trace) =>
    let '(r, s') := op s in
    (match r with
     | Ok a => inr a
     | Err e => inl (step, e)
     end, (s', trace ++ [c])).

Notation "x ←? m ; k" := (gbind m (fun x => k))
  (at level 100, m at next level, right associativity, only parsing).

(** Lines 102-110: one entry per key of the map. *)
Definition treeEntries (files : gmap string string) : list TreeEntry :=
  map (fun '(filePath, content) => mkTreeEntry filePath "blob" content "100644")
      (rangeMap files).

Definition UploadFiles (Owner Repo : string) (files : gmap string string)
    (commitMessage : string) : Git unit :=
  ref ←? remote StepGetRef (CallGetRef Owner Repo "heads/main")
           (GetRef git Owner Repo "heads/main");
  baseTree ←? remote StepGetTree (CallGetTree Owner Repo (Object_SHA ref) true)
           (GetTree git Owner Repo (Object_SHA ref) true);
  let entries := treeEntries files in
  newTree ←? remote StepCreateTree
           (CallCreateTree Owner Repo (Tree_SHA baseTree) entries)
           (CreateTree git Owner Repo (Tree_SHA baseTree) entries);
  let newCommit := mkCommit "" commitMessage newTree [Object_SHA ref] in
  commit ←? remote StepCreateCommit (CallCreateCommit Owner Repo newCommit)
           (CreateCommit git Owner Repo newCommit);
  let ref := mkReference (Ref ref) (Commit_SHA commit) in
  _ ←? remote StepUpdateRef (CallUpdateRef Owner Repo ref false)
           (UpdateRef git Owner Repo ref false);
  gret tt.

(** Line 236: [path.Join(today, strings.TrimPrefix(fileKey, prefix))] *)
Definition githubFilePath (prefix fileKey : string) : string :=
  Join [today; TrimPrefix fileKey prefix].

(** Lines 228-238: a key whose download fails is logged and passed over. *)
Definition collect (bucket prefix : string) (files : list string)
    : gmap string string :=
  fold_left
    (fun fileContents fileKey =>
       match DownloadFile bucket fileKey with
       | Err _ => fileContents
       | Ok fileContent => <[githubFilePath prefix fileKey := fileContent]> fileContents
       end)
    files ∅.

(** The listed keys whose download succeeds, and the tree entry of such a
    key: its repository path, and the bytes that were downloaded. *)
Definition downloaded (bucket : string) (files : list string) : list string :=
  filter (fun key => is_ok (DownloadFile bucket key) = true) files.

Definition entry_of (bucket prefix key : string) : TreeEntry :=
  mkTreeEntry (githubFilePath prefix key) "blob"
    (match DownloadFile bucket key with Ok bytes => bytes | Err _ => "" end)
    "100644".

(** The publish batch: the (path, bytes) pairs of the keys that downloaded,
    in listing order; [fileContents[path] = bytes] for one of them. *)
Definition batch (bucket prefix : string) (files : list string)
    : list (string * string) :=
  map (fun key => (Path (entry_of bucket prefix key),
                   Content (entry_of bucket prefix key)))
      (downloaded bucket files).

Definition insert_pair (m : gmap string string) (kv : string * string)
    : gmap string string :=
  <[kv.1 := kv.2]> m.

(** The five required environment variables are set. *)
Definition configured : Prop :=
  Getenv "AWS_REGION" <> "" /\ Getenv "S3_BUCKET_NAME" <> ""
  /\ Getenv "TOKEN_GITHUB" <> "" /\ Getenv "OWNER_GITHUB" <> ""
  /\ Getenv "REPO_GITHUB" <> "".

(** What one invocation did: how it ended, the state of the hosting service
    afterwards and the remote calls it made to it. *)
Record Run : Type := mkRun {
  outcome : Outcome (APIGatewayProxyResponse * option string);
  github : State;
  calls : list GitCall
}.

Definition Handler (s : State) : Run :=
  let awsRegion := Getenv "AWS_REGION" in
  let bucketName := Getenv "S3_BUCKET_NAME" in
  let githubToken := Getenv "TOKEN_GITHUB" in
  let owner := Getenv "OWNER_GITHUB" in
  let repo := Getenv "REPO_GITHUB" in
  if String.eqb awsRegion "" || String.eqb bucketName ""
     || String.eqb githubToken "" || String.eqb owner "" || String.eqb repo ""
  then mkRun (Exits "One or more required environment variables are missing.") s []
  else
    match LoadDefaultConfig awsRegion with
    | Err err => mkRun (Exits ("failed to load AWS config: " +:+ err)) s []
    | Ok _ =>
        let prefix := "news/" +:+ today +:+ "/" in
        match ListFiles bucketName prefix with
        | Err err => mkRun (Exits ("failed to list files in S3: " +:+ err)) s []
        | Ok files =>
            let fileContents := collect bucketName prefix files in
            if (0 <? size fileContents)%nat then
              match UploadFiles owner repo fileContents
                      ("Add: 오늘의 기사 추가(" +:+ today +:+ ")") (s, []) with
              | (inl err, (s', trace)) =>
                  mkRun (Returns
                           (mkResponse StatusInternalServerError
                              ("{" +:+ quoted "error" +:+ ": "
                               +:+ quoted ("Failed to upload files: " +:+ error_text err)
                               +:+ "}") [],
                            None)) s' trace
              | (inr _, (s', trace)) =>
                  mkRun (Returns
                           (mkResponse StatusOK
                              ("{" +:+ quoted "message" +:+ ": "
                               +:+ quoted "Files uploaded successfully in a single commit"
                               +:+ "}") [],
                            None)) s' trace
              end
            else
              mkRun (Returns
                       (mkResponse StatusOK
                          ("{" +:+ quoted "message" +:+ ": "
                           +:+ quoted "Files uploaded successfully in a single commit"
                           +:+ "}") [],
                        None)) s []
        end
    end.

End Service.

(** *** The single-file uploader [UploadFile] (lines 140-177) *)

(** What [Repositories.GetContents] hands back: the SHA of the file content
    ([None] when the content or its SHA is [nil]), the status of the
    response ([None] when the response itself is [nil]), and the error. *)
Record ContentsAnswer : Type := mkContentsAnswer {
  fileContent_SHA : option string;
  resp_StatusCode : option Z;
  contents_err : option string
}.

(** [github.RepositoryContentFileOptions] *)
Record FileOptions : Type := mkFileOptions {
  opt_Message : string;
  opt_Content : string;
  opt_SHA : option string
}.

Inductive ContentsCall : Type :=
| CallGetContents (owner repo path : string)
| CallCreateFile (owner repo path : string) (opts : FileOptions)
| CallUpdateFile (owner repo path : string) (opts : FileOptions).

Definition is_write (c : ContentsCall) : bool :=
  match c with
  | CallGetContents _ _ _ => false
  | _ => true
  end.

Record ContentsService (State : Type) : Type := mkContentsService {
  GetContents : string -> string -> string -> State -> ContentsAnswer * State;
  CreateFile : string -> string -> string -> FileOptions -> State
               -> Result unit * State;
  UpdateFile : string -> string -> string -> FileOptions -> State
               -> Result unit * State
}.
Arguments GetContents {State}.
Arguments CreateFile {State}.
Arguments UpdateFile {State}.

Section Contents.

Context {State : Type}.
Variable api : ContentsService State.

(** [UploadFile]: the returned error ([None] is [nil]), the state of the
    service and the calls made.  [resp.StatusCode] on a [nil] response is a
    nil pointer dereference; [fileContent.GetSHA()] is the empty string on
    a [nil] content. *)
Definition UploadFile (Owner Repo path content : string) (s : State)
    : Outcome (option string) * State * list ContentsCall :=
  let '(answer, s1) := GetContents api Owner Repo path s in
  let check := CallGetContents Owner Repo path in
  match resp_StatusCode answer with
  | None =>
      (Panics "runtime error: invalid memory address or nil pointer dereference",
       s1, [check])
  | Some status =>
      if bool_decide (is_Some (contents_err answer)) && negb (status =? 404)%Z
      then (Returns (Some ("failed to check file existence: "
                           +:+ default "" (contents_err answer))), s1, [check])
      else
        let message := "Add file: " +:+ path in
        if (status =? 404)%Z then
          let opts := mkFileOptions message content None in
          let '(r, s2) := CreateFile api Owner Repo path opts s1 in
          (Returns match r with
                   | Err err => Some ("failed to create file: " +:+ err)
                   | Ok _ => None
                   end, s2, [check; CallCreateFile Owner Repo path opts])
        else
          let sha := default "" (fileContent_SHA answer) in
          let opts := mkFileOptions message content (Some sha) in
          let '(r, s2) := UpdateFile api Owner Repo path opts s1 in
          (Returns match r with
                   | Err err => Some ("failed to update file: " +:+ err)
                   | Ok _ => None
                   end, s2, [check; CallUpdateFile Owner Repo path opts])
  end.

End Contents.

End Publisher.

(** ** gpt-api/main.go *)

Module GptApi.

Record GPTRequest : Type := mkGPTRequest {
  Content : string;
  Prompt : string
}.

Record ChatCompletionMessage : Type := mkMessage {
  Role : string;
  MessageContent : string
}.

Record ChatCompletionRequest : Type := mkChatRequest {
  Model : string;
  Messages : list ChatCompletionMessage
}.

Section Service.

(** The environment, [json.Unmarshal] into a [GPTRequest], and the
    completion endpoint of the client made from an API key: its answer is
    the list of the messages of [contentResp.Choices]. *)
Variable Getenv : string -> string.
Variable Unmarshal : string -> Result GPTRequest.
Variable CreateChatCompletion :
  string -> ChatCompletionRequest -> Result (list ChatCompletionMessage).

(** [ChatGPT]: an error of the endpoint goes to [log.Fatalf];
    [contentResp.Choices[0]] is an index out of range on no choice. *)
Definition ChatGPT (gptRequest : GPTRequest) (apiKey : string)
    : Outcome (string * option string) :=
  let messages : list ChatCompletionMessage := [] in
  let messages :=
    messages ++ [mkMessage "user"
                   (Prompt gptRequest +:+ " :" +:+ String "010" (String "010" "")
                    +:+ Content gptRequest)] in
  match CreateChatCompletion apiKey (mkChatRequest "gpt-3.5-turbo" messages) with
  | Err err => Exits err
  | Ok choices =>
      match choices with
      | [] => Panics "runtime error: index out of range [0] with length 0"
      | choice :: _ => Returns (MessageContent choice, None)
      end
  end.

Definition Handler (requestBody : string)
    : Outcome (APIGatewayProxyResponse * option string) :=
  match Unmarshal requestBody with
  | Err err =>
      Returns (mkResponse StatusBadRequest
                 ("{" +:+ quoted "error" +:+ ": "
                  +:+ quoted ("Invalid request body: " +:+ err) +:+ "}") [], None)
  | Ok req =>
      let apiKey := Getenv "API_KEY" in
      match ChatGPT req apiKey with
      | Panics m => Panics m
      | Exits m => Exits m
      | Returns (gptResponse, Some err) =>
          Returns (mkResponse StatusInternalServerError
                     ("{" +:+ quoted "error" +:+ ": "
                      +:+ quoted ("Failed to gpt connection: " +:+ err) +:+ "}") [],
                   None)
      | Returns (gptResponse, None) =>
          Returns (mkResponse StatusOK gptResponse [("Content-Type", "text/plain")],
                   None)
      end
  end.

End Service.

End GptApi.

(** ** The pattern of [cleanANSI] *)

Module Regexp.

(** The escape character [\x1B]. *)
Definition ESC : ascii := ascii_of_nat 27.

Definition is_param (c : ascii) : bool := is_digit c || Ascii.eqb c ";"%char.

Definition is_letter (c : ascii) : bool :=
  ((97 <=? nat_of_ascii c)%nat && (nat_of_ascii c <=? 122)%nat)
  || ((65 <=? nat_of_ascii c)%nat && (nat_of_ascii c <=? 90)%nat).

(** [[0-9;]*[a-zA-Z]] at the start of [s]: what follows the match.  The two
    classes share no character, so there is at most one way to match. *)
Fixpoint match_tail (s : string) : option string :=
  match s with
  | EmptyString => None
  | String c s' =>
      if is_param c then match_tail s'
      else if is_letter c then Some s'
      else None
  end.

(** [\x1B\[[0-9;]*[a-zA-Z]] at the start of [s]: what follows the match. *)
Definition match_ansi (s : string) : option string :=
  match s with
  | String e (String b s') =>
      if Ascii.eqb e ESC && Ascii.eqb b "["%char then match_tail s' else None
  | _ => None
  end.

(** [ReplaceAllString(input, "")]: from left to right, a match is dropped
    and the search goes on after it; a character where no match starts is
    kept.  Every step takes at least one character, so [fuel] as large as
    the length of the input is never used up. *)
Fixpoint replace_all (fuel : nat) (s : string) : string :=
  match fuel with
  | O => s
  | S fuel' =>
      match s with
      | EmptyString => EmptyString
      | String c s' =>
          match match_ansi s with
          | Some rest => replace_all fuel' rest
          | None => String c (replace_all fuel' s')
          end
      end
  end.

Definition ReplaceAllANSI (input : string) : string :=
  replace_all (String.length input) input.

(** A string without the escape character. *)
Fixpoint esc_free (s : string) : bool :=
  match s with
  | EmptyString => true
  | String c s' => negb (Ascii.eqb c ESC) && esc_free s'
  end.

End Regexp.

(** ** A small concrete world

    One environment, one article, and remote services that answer or fail
    in a fixed way; used to run the handlers on concrete inputs. *)

Module Example.

Definition getenv (name : string) : string := "value-of-" +:+ name.

Definition new_request (method url : string) : Result unit := Ok tt.

(** *** For the transformer *)

Definition article : Transformer.NewsArticle :=
  Transformer.mkArticle "title" "raw content" "2025-01-04 15:25 2025-01-04 16:08".

Definition unmarshal (body : string) : option Transformer.NewsArticle :=
  Some article.

(** A cleaning service that answers every call, each stage differently. *)
Definition gpt_up (site : Transformer.CallSite) (url : string)
    (req : Transformer.GPTRequest) : HttpResult :=
  HttpResponse 200
    (Some match site with
          | Transformer.ContentStage1 => "first"
          | Transformer.ContentStage2 => "second"
          | Transformer.ContentStage3 => "third"
          | Transformer.DateStage => "2025-01-04 15:25"
          end).

(** A cleaning service that cannot be reached. *)
Definition gpt_down (site : Transformer.CallSite) (url : string)
    (req : Transformer.GPTRequest) : HttpResult :=
  TransportError "connection refused".

(** *** For the orchestrator *)

Definition categories : gmap string string :=
  <["a" := "https://example.org/a"]> (<["b" := "https://example.org/b"]> ∅).

Definition scraped : list Orchestrator.NewsArticle :=
  [Orchestrator.mkArticle "t0" "c0" "d0"; Orchestrator.mkArticle "t1" "c1" "d1"].

Definition query_unescape (s : string) : Result string := Ok s.

(** The extraction of category ["a"] fails; category ["b"] yields two
    articles, of which the second cannot be converted. *)
Definition do_ (id : Orchestrator.CallId) (req : Orchestrator.HttpRequest)
    : HttpResult :=
  match id with
  | Orchestrator.ScrapeCall c =>
      if String.eqb c "a" then HttpResponse 500 (Some "")
      else HttpResponse 200 (Some "articles")
  | Orchestrator.ConvertCall _ i =>
      if (i =? 1)%nat then TransportError "timeout"
      else HttpResponse 200 (Some "# markdown")
  | _ => HttpResponse 200 (Some "")
  end.

Definition marshal (a : Orchestrator.NewsArticle) : Result string :=
  Ok (Orchestrator.Title a).

Definition unmarshal_articles (body : string)
    : Result (list Orchestrator.NewsArticle) :=
  Ok scraped.

Definition utf8_valid (s : string) : bool := true.
Definition replace_all_ansi (s : string) : string := s.

(** Goroutine logs one after the other. *)
Definition one_by_one (logs : list (list Orchestrator.Event))
    : list Orchestrator.Event :=
  concat logs.

(** *** For the publisher *)

Definition today : string := "2025-01-04".
Definition key_a : string := "news/2025-01-04/2025-01-04_politics_0.md".
Definition key_b : string := "news/2025-01-04/2025-01-04_politics_1.md".

Definition load_config (region : string) : Result unit := Ok tt.

(** Two pages of one key each, and an empty listing. *)
Definition two_pages (bucket prefix : string) : list Publisher.Page :=
  [Ok [key_a]; Ok [key_b]].
Definition no_files (bucket prefix : string) : list Publisher.Page := [Ok []].

(** The second object cannot be downloaded. *)
Definition get_object (bucket key : string) : Result (Result string) :=
  if String.eqb key key_b then Err "NoSuchKey" else Ok (Ok "# article").

(** A hosting service whose state is the head commit of the branch, and
    in which the steps named by [broken] fail. *)
Definition hosting (broken : Publisher.Step -> bool)
    : Publisher.GitService string :=
  Publisher.mkGitService string
    (fun _ _ ref s =>
       (if broken Publisher.StepGetRef then Err "502"
        else Ok (Publisher.mkReference ref s), s))
    (fun _ _ sha _ s =>
       (if broken Publisher.StepGetTree then Err "502"
        else Ok (Publisher.mkTree "base-tree" []), s))
    (fun _ _ base entries s =>
       (if broken Publisher.StepCreateTree then Err "502"
        else Ok (Publisher.mkTree "new-tree" entries), s))
    (fun _ _ commit s =>
       (if broken Publisher.StepCreateCommit then Err "502"
        else Ok (Publisher.mkCommit "new-commit" (Publisher.Message commit)
                   (Publisher.Commit_Tree commit) (Publisher.Parents commit)), s))
    (fun _ _ ref _ s =>
       if broken Publisher.StepUpdateRef then (Err "422", s)
       else (Ok ref, Publisher.Object_SHA ref))
    (fun s => s).

Definition all_up (step : Publisher.Step) : bool := false.
Definition tree_down (step : Publisher.Step) : bool :=
  match step with Publisher.StepCreateTree => true | _ => false end.

Definition range_map (m : gmap string string) : list (string * string) :=
  map_to_list m.

(** An upload of one file to a service that cannot create trees. *)
Definition one_file : gmap string string :=
  {["2025-01-04/2025-01-04_politics_0.md" := "# article"]}.

Definition failed_upload
    : (Publisher.UploadError + unit) * (string * list Publisher.GitCall) :=
  Publisher.UploadFiles (hosting tree_down) range_map "owner" "repo" one_file
    "message" ("old-head", []).

(** The publisher in this world, started on head ["old-head"]. *)
Definition publisher_run : Publisher.Run :=
  Publisher.Handler getenv load_config today two_pages get_object
    (hosting all_up) range_map "old-head".

(** Two keys that differ by a doubled slash, both downloadable: each
    object holds its own key. *)
Definition twin_pages (bucket prefix : string) : list Publisher.Page :=
  [Ok ["news/2025-01-04/x.md"; "news/2025-01-04//x.md"]].

Definition get_key (bucket key : string) : Result (Result string) := Ok (Ok key).

Definition twin_run : Publisher.Run :=
  Publisher.Handler getenv load_config today twin_pages get_key
    (hosting all_up) range_map "old-head".

(** The publisher on a day without files. *)
Definition idle_run : Publisher.Run :=
  Publisher.Handler getenv load_config today no_files get_object
    (hosting all_up) range_map "old-head".

End Example.

(** ** More of the concrete world *)

Module World.

(** *** A section page with three anchors *)

Definition base_url : string := "https://n.news.naver.com".
Definition detail : string := "/article/".

Definition section_page : Crawling.Document :=
  Crawling.mkDocument
    [Some "/mnews/article/001/1"; Some "/mnews/article/comment/001/1";
     Some "/mnews/article/001/2"]
    "" "" "".

Definition article_page : Crawling.Document :=
  Crawling.mkDocument [] "headline" "body" "2025-01-04".

(** The second article cannot be fetched. *)
Definition fetch (at_ : Crawling.Fetch) (url : string) : Crawling.FetchResult :=
  match at_ with
  | Crawling.SectionPage => Crawling.Fetched 200 (Ok section_page)
  | Crawling.ArticlePage =>
      if String.eqb url "https://n.news.naver.com/mnews/article/001/2"
      then Crawling.Fetched 404 (Err "")
      else Crawling.Fetched 200 (Ok article_page)
  end.

Definition trim (s : string) : string := s.
Definition marshal_articles (articles : list Crawling.NewsArticle)
    : Result string := Ok "[...]".
Definition as_they_come (articles : list Crawling.NewsArticle)
    : list Crawling.NewsArticle := articles.

Definition crawl : Outcome (APIGatewayProxyResponse * option string) :=
  Crawling.Handler base_url detail Example.new_request fetch trim
    marshal_articles as_they_come "https://news.naver.com/section/100".

(** *** A day on which no object can be downloaded *)

Definition s3_down (bucket key : string) : Result (Result string) :=
  Err "RequestTimeout".

Definition blind_run : Publisher.Run :=
  Publisher.Handler Example.getenv Example.load_config Example.today
    Example.two_pages s3_down (Example.hosting Example.all_up)
    Example.range_map "old-head".

(** *** The store upload of the first article of category ["b"] *)


Definition fanout : list Orchestrator.Event :=
  Orchestrator.RunAll Example.getenv Example.query_unescape Example.new_request
    Example.do_ Example.marshal Example.unmarshal_articles Example.utf8_valid
    Example.replace_all_ansi Example.one_by_one Example.categories.

End World.

(** * Properties *)

(** ** Strings and paths *)

Module GoFacts.

Lemma append_nil (r : string) : "" +:+ r = r.
Proof. reflexivity. Qed.

Lemma append_cons (c : ascii) (p r : string) :
  String c p +:+ r = String c (p +:+ r).
Proof. reflexivity. Qed.

Lemma append_assoc (a b c : string) : (a +:+ b) +:+ c = a +:+ (b +:+ c).
Proof. induction a as [|x a IH]; [done|]. rewrite !append_cons. by rewrite IH. Qed.

Lemma HasPrefix_spec (s p : string) :
  HasPrefix s p = true <-> exists r, s = p +:+ r.
Proof.
  revert s. induction p as [|c p IH]; intros s; simpl.
  - split; [intros _; by exists s | done].
  - destruct s as [|d s]; simpl.
    + split; [done | intros [r Hr]; discriminate].
    + setoid_rewrite append_cons.
      destruct (Ascii.eqb_spec c d) as [->|Hne]; simpl.
      * rewrite IH. split; intros [r Hr]; exists r; congruence.
      * split; [done | intros [r Hr]; congruence].
Qed.

Lemma HasPrefix_app (p r : string) : HasPrefix (p +:+ r) p = true.
Proof. apply HasPrefix_spec. by exists r. Qed.

Lemma Contains_spec (s sub : string) :
  Contains s sub = true <-> exists pre post, s = pre +:+ sub +:+ post.
Proof.
  induction s as [|c s IH]; simpl.
  - destruct (HasPrefix "" sub) eqn:Hp.
    + apply HasPrefix_spec in Hp as [r Hr]. split; [|done].
      intros _. by exists "", r.
    + split; [done|]. intros [pre [post H]].
      destruct pre as [|d pre]; [|discriminate].
      rewrite append_nil in H.
      assert (HasPrefix "" sub = true) by (apply HasPrefix_spec; eauto).
      congruence.
  - destruct (HasPrefix (String c s) sub) eqn:Hp.
    + apply HasPrefix_spec in Hp as [r Hr]. split; [|done].
      intros _. by exists "", r.
    + rewrite IH. split.
      * intros [pre [post H]]. exists (String c pre), post.
        rewrite append_cons. by rewrite H.
      * intros [pre [post H]]. destruct pre as [|d pre].
        -- rewrite append_nil in H.
           assert (HasPrefix (String c s) sub = true)
             by (apply HasPrefix_spec; eauto).
           congruence.
        -- rewrite append_cons in H. injection H as _ H. eauto.
Qed.

Lemma slash_free_app (a b : string) :
  slash_free (a +:+ b) = slash_free a && slash_free b.
Proof.
  induction a as [|c a IH]; [done|].
  rewrite append_cons. simpl. rewrite IH. by rewrite andb_assoc.
Qed.

Lemma split_slash_free (s : string) :
  slash_free s = true -> split_slash s = [s].
Proof.
  induction s as [|c s IH]; [done|]. simpl.
  intros [Hc Hs]%andb_true_iff. apply negb_true_iff in Hc.
  by rewrite Hc, IH.
Qed.

Lemma split_slash_app (s t : string) :
  slash_free s = true ->
  split_slash (s +:+ "/" +:+ t) = s :: split_slash t.
Proof.
  induction s as [|c s IH]; [done|]. rewrite append_cons. simpl.
  intros [Hc Hs]%andb_true_iff. apply negb_true_iff in Hc.
  by rewrite Hc, IH.
Qed.

Lemma clean_step_plain (rooted : bool) (out : list string) (elem : string) :
  plain_elem elem = true -> clean_step rooted out elem = out ++ [elem].
Proof.
  unfold plain_elem, clean_step.
  intros [[[H0 H1]%andb_true_iff H2]%andb_true_iff _]%andb_true_iff.
  apply negb_true_iff in H0, H1, H2. by rewrite H0, H1, H2.
Qed.

(** [path.Join] of two plain elements puts a slash between them. *)
Lemma Join_plain (d n : string) :
  plain_elem d = true -> plain_elem n = true ->
  Join [d; n] = d +:+ "/" +:+ n.
Proof.
  intros Hd Hn.
  assert (Hsd : slash_free d = true) by (by apply andb_true_iff in Hd as [_ ?]).
  assert (Hsn : slash_free n = true) by (by apply andb_true_iff in Hn as [_ ?]).
  destruct d as [|c d]; [done|].
  assert (Hc : Ascii.eqb c "/"%char = false).
  { simpl in Hsd. apply andb_true_iff in Hsd as [Hc _]. by apply negb_true_iff. }
  change (Join [String c d; n]) with (Clean (String c d +:+ "/" +:+ n)).
  unfold Clean. rewrite append_cons at 1. rewrite Hc.
  rewrite split_slash_app, split_slash_free by done. simpl.
  rewrite (clean_step_plain _ _ _ Hd). simpl.
  by rewrite (clean_step_plain _ _ _ Hn).
Qed.

Lemma is_digit_not_slash (c : ascii) :
  is_digit c = true -> Ascii.eqb c "/"%char = false.
Proof.
  destruct c as [[] [] [] [] [] [] [] []]; vm_compute; congruence.
Qed.

Lemma is_date_plain (d : string) : is_date d = true -> plain_elem d = true.
Proof.
  unfold is_date.
  do 10 (destruct d as [|? d]; [done|]). destruct d; [|done].
  cbn -[is_digit Ascii.eqb]. intros H.
  rewrite ?andb_true_iff in H. destruct_and!.
  repeat match goal with
         | Hd : is_digit _ = true |- _ => apply is_digit_not_slash in Hd
         | He : Ascii.eqb _ "-"%char = true |- _ => apply Ascii.eqb_eq in He; subst
         end.
  unfold plain_elem. simpl.
  repeat match goal with Hd : Ascii.eqb _ _ = false |- _ => rewrite Hd; clear Hd end.
  simpl. by repeat (destruct (Ascii.eqb _ _); simpl).
Qed.

Lemma string_of_uint_slash_free (u : Decimal.uint) :
  slash_free (DecimalString.NilEmpty.string_of_uint u) = true.
Proof. induction u; simpl; auto. Qed.

Lemma Itoa_slash_free (i : nat) : slash_free (Itoa i) = true.
Proof.
  unfold Itoa, DecimalString.NilZero.string_of_uint.
  destruct (Nat.to_uint i) eqn:E; [done|..];
    rewrite <- E; apply string_of_uint_slash_free.
Qed.

Lemma drop_bytes_app (p r : string) : drop_bytes (String.length p) (p +:+ r) = r.
Proof. induction p as [|c p IH]; [done|]. rewrite append_cons. simpl. exact IH. Qed.

Lemma TrimPrefix_app (p r : string) : TrimPrefix (p +:+ r) p = r.
Proof. unfold TrimPrefix. by rewrite HasPrefix_app, drop_bytes_app. Qed.

End GoFacts.

(** ** Headline extraction *)

Module CrawlingFacts.
Import Crawling.

Section Headlines.

Variables BASE_URL BASE_URL_DETAIL : string.

Local Abbreviation isValid := (isValidNewsLink BASE_URL_DETAIL).
Local Abbreviation loop := (EachWithBreak BASE_URL BASE_URL_DETAIL).
Local Abbreviation valid := (valid_anchor BASE_URL BASE_URL_DETAIL).

Local Abbreviation loop_inv := (loop_inv BASE_URL_DETAIL).

Lemma loop_inv_init : loop_inv [] ∅.
Proof.
  split; [constructor | split; [constructor |]].
  intros l. unfold seen_get. rewrite lookup_empty. simpl.
  split; [done | by intros ?%elem_of_nil].
Qed.

Lemma loop_inv_step links seen link :
  loop_inv links seen ->
  isValid link = true -> seen_get seen link = false ->
  loop_inv (links ++ [link]) (<[link := true]> seen).
Proof.
  intros (Hnd & Hval & Hseen) Hv Hs. split; [|split].
  - apply NoDup_app. split; [done | split; [| apply NoDup_singleton]].
    intros x Hx ->%list_elem_of_singleton.
    apply Hseen in Hx. congruence.
  - apply Forall_app. split; [done | by constructor].
  - intros l. unfold seen_get. rewrite elem_of_app, list_elem_of_singleton.
    destruct (decide (link = l)) as [->|Hne].
    + rewrite lookup_insert_eq. simpl. split; auto.
    + rewrite lookup_insert_ne by done. fold (seen_get seen l).
      rewrite Hseen. split; [auto | intros [?|?]; [done | congruence]].
Qed.

(** The loop, unfolded once. *)
Lemma EachWithBreak_cons s rest links seen :
  loop (s :: rest) links seen =
  if (5 <=? length links)%nat then Returns links
  else match s with
       | None => loop rest links seen
       | Some href =>
           match absolute BASE_URL href with
           | None => Panics "runtime error: index out of range [0] with length 0"
           | Some link =>
               if isValid link && negb (seen_get seen link)
               then loop rest (links ++ [link]) (<[link := true]> seen)
               else loop rest links seen
           end
       end.
Proof. reflexivity. Qed.

(** The loop only appends. *)
Lemma loop_extends sel : forall links seen links',
  loop sel links seen = Returns links' -> exists more, links' = links ++ more.
Proof.
  induction sel as [|s rest IH]; intros links seen links' H.
  - simpl in H. simplify_eq. exists []. by rewrite app_nil_r.
  - rewrite EachWithBreak_cons in H. destruct (5 <=? length links)%nat.
    { simplify_eq. exists []. by rewrite app_nil_r. }
    destruct s as [href|]; [|eauto].
    destruct (absolute BASE_URL href) as [link|]; [|discriminate].
    destruct (isValid link && negb (seen_get seen link)).
    + apply IH in H as [more ->]. exists (link :: more). by rewrite <- app_assoc.
    + eauto.
Qed.

Lemma loop_keeps_inv sel : forall links seen links',
  loop_inv links seen -> (length links <= 5)%nat ->
  loop sel links seen = Returns links' ->
  NoDup links' /\ Forall (fun l => isValid l = true) links'
  /\ (length links' <= 5)%nat.
Proof.
  induction sel as [|s rest IH]; intros links seen links' Hinv Hlen H.
  - simpl in H. simplify_eq. destruct Hinv as (? & ? & _). auto.
  - rewrite EachWithBreak_cons in H.
    destruct (5 <=? length links)%nat eqn:Hfull.
    { simplify_eq. destruct Hinv as (? & ? & _). auto. }
    apply Nat.leb_gt in Hfull.
    destruct s as [href|]; [|eauto].
    destruct (absolute BASE_URL href) as [link|]; [|discriminate].
    destruct (isValid link && negb (seen_get seen link)) eqn:Hadd.
    + apply andb_true_iff in Hadd as [Hv Hs]. apply negb_true_iff in Hs.
      eapply IH; [by apply loop_inv_step | | exact H].
      rewrite length_app. simpl. lia.
    + eauto.
Qed.

(** When nothing was collected, no anchor of the selection was valid. *)
Lemma loop_nothing_found sel : forall links seen,
  loop_inv links seen ->
  loop sel links seen = Returns [] ->
  Forall (fun s => valid s = false) sel.
Proof.
  induction sel as [|s rest IH]; intros links seen Hinv H; [constructor|].
  pose proof (loop_extends _ _ _ _ H) as [more Hmore].
  symmetry in Hmore. apply app_eq_nil in Hmore as [-> _].
  rewrite EachWithBreak_cons in H. simpl in H.
  destruct s as [href|]; [|constructor; [done | eauto]].
  destruct (absolute BASE_URL href) as [link|] eqn:Habs; [|discriminate].
  destruct (isValid link && negb (seen_get seen link)) eqn:Hadd.
  - apply loop_extends in H as [more' Hm]. by destruct more'.
  - constructor; [|eauto]. unfold valid_anchor. rewrite Habs.
    apply andb_false_iff in Hadd as [Hv|Hs]; [done|].
    apply negb_false_iff in Hs. destruct Hinv as (_ & _ & Hseen).
    apply Hseen in Hs. by apply elem_of_nil in Hs.
Qed.

(** When no anchor is valid, nothing is collected. *)
Lemma loop_none_valid sel : forall links seen links',
  Forall (fun s => valid s = false) sel ->
  loop sel links seen = Returns links' -> links' = links.
Proof.
  induction sel as [|s rest IH]; intros links seen links' Hall H.
  - simpl in H. by simplify_eq.
  - rewrite EachWithBreak_cons in H.
    destruct (5 <=? length links)%nat; [by simplify_eq|].
    apply Forall_cons in Hall as [Hs Hall].
    destruct s as [href|]; [|eauto].
    unfold valid_anchor in Hs.
    destruct (absolute BASE_URL href) as [link|]; [|discriminate].
    rewrite Hs in H. simpl in H. eauto.
Qed.

(** Whenever [ScrapeHeadlines] returns, it returns what its comment says:
    at most five links, pairwise distinct, each containing
    [BASE_URL_DETAIL] and none containing the comment marker; and it
    returns an error exactly when the selection holds no valid link. *)
Theorem ScrapeHeadlines_when_it_returns (doc : Selection) r :
  ScrapeHeadlines BASE_URL BASE_URL_DETAIL doc = Returns r ->
  (forall links, r = Ok links ->
     (0 < length links <= 5)%nat /\ NoDup links
     /\ Forall (fun l => Contains l BASE_URL_DETAIL = true
                         /\ Contains l "/comment/" = false) links)
  /\ ((exists e, r = Err e) <-> Forall (fun s => valid s = false) doc).
Proof.
  unfold ScrapeHeadlines.
  destruct (loop doc [] ∅) as [links| |] eqn:Hloop; [|discriminate..].
  pose proof (loop_keeps_inv _ _ _ _ loop_inv_init ltac:(simpl; lia) Hloop)
    as (Hnd & Hval & Hlen).
  destruct links as [|l links]; simpl; intros [= <-].
  - split; [discriminate|]. split; [|eauto].
    intros _. by eapply loop_nothing_found, Hloop; apply loop_inv_init.
  - split.
    + intros ? [= <-]. split; [simpl in *; lia | split; [done|]].
      eapply Forall_impl; [exact Hval|]. intros x Hx. unfold isValidNewsLink in Hx.
      apply andb_true_iff in Hx as [Hx Hc]. apply andb_true_iff in Hx as [_ Hd].
      by apply negb_true_iff in Hc.
    + split; [by intros [e ?]|]. intros Hall.
      by apply (loop_none_valid _ _ _ _ Hall) in Hloop.
Qed.

(** An anchor with an empty [href] reached by the loop stops the whole
    function with a run-time panic: nothing is returned, neither links nor
    an error. *)
Lemma ScrapeHeadlines_empty_href_first (rest : Selection) :
  ScrapeHeadlines BASE_URL BASE_URL_DETAIL (Some "" :: rest)
  = Panics "runtime error: index out of range [0] with length 0".
Proof. reflexivity. Qed.

End Headlines.

(** C10 (the code departs from the claim): on a selection whose first anchor
    has an empty [href] and whose second anchor is a valid article link,
    [ScrapeHeadlines] returns neither the valid link nor an error: the
    expression [link[0]] panics before [isValidNewsLink] can test the
    length. *)
Theorem ScrapeHeadlines_panics_on_empty_href :
  let doc := [Some ""; Some "/mnews/article/001/0001"] in
  valid_anchor "https://n.news.naver.com" "/article/" (Some "/mnews/article/001/0001") = true
  /\ ScrapeHeadlines "https://n.news.naver.com" "/article/" doc
     = Panics "runtime error: index out of range [0] with length 0"
  /\ ScrapeHeadlines "https://n.news.naver.com" "/article/" [Some ""]
     = Panics "runtime error: index out of range [0] with length 0".
Proof.
  cbv zeta. split; [vm_compute; reflexivity|].
  split; apply ScrapeHeadlines_empty_href_first.
Qed.

End CrawlingFacts.

(** ** The Content Transformer *)

Module TransformerFacts.
Import Transformer.

Lemma ConvertToMarkdown_not_empty (article : NewsArticle) :
  (String.length (ConvertToMarkdown article) =? 0)%nat = false.
Proof. reflexivity. Qed.

Section Service.

Variable Getenv : string -> string.
Variable NewRequest : string -> string -> Result unit.
Variable Do : CallSite -> string -> GPTRequest -> HttpResult.
Variable Unmarshal : string -> option NewsArticle.

Local Abbreviation FetchGPT := (FetchGPT Getenv NewRequest Do).
Local Abbreviation contentRoutine := (contentRoutine Getenv NewRequest Do).
Local Abbreviation dateRoutine := (dateRoutine Getenv NewRequest Do).
Local Abbreviation transformed := (transformed Getenv NewRequest Do).
Local Abbreviation Handler := (Handler Getenv NewRequest Do Unmarshal).

Local Abbreviation stage1 := (stage1 Getenv).
Local Abbreviation stage2 := (stage2 Getenv).
Local Abbreviation stage3 := (stage3 Getenv).
Local Abbreviation fetch := (fetch Getenv NewRequest Do).

(** The content goroutine, by the outcome of its calls. *)
Lemma contentRoutine_cases (article : NewsArticle) :
  contentRoutine article =
  match fetch (stage1 article) with
  | Err _ => ([stage1 article], None)
  | Ok _ =>
      match fetch (stage2 article) with
      | Err _ => ([stage1 article; stage2 article], None)
      | Ok _ =>
          ([stage1 article; stage2 article; stage3 article],
           match fetch (stage3 article) with
           | Ok r3 => Some r3
           | Err _ => None
           end)
      end
  end.
Proof.
  unfold Transformer.contentRoutine, rbind, fetch_or_return, Transformer.fetch,
    Transformer.stage1, Transformer.stage2, Transformer.stage3, rret; simpl.
  destruct (FetchGPT ContentStage1 _); [|done].
  destruct (FetchGPT ContentStage2 _); [|done].
  destruct (FetchGPT ContentStage3 _); done.
Qed.

Lemma dateRoutine_cases (article : NewsArticle) :
  dateRoutine article =
  ([dateStage article],
   match fetch (dateStage article) with
   | Ok r => Some r
   | Err _ => None
   end).
Proof.
  unfold Transformer.dateRoutine, rbind, fetch_or_return, Transformer.fetch,
    dateStage, rret;
    simpl.
  destruct (FetchGPT DateStage _); done.
Qed.

(** C3: every request of the content goroutine carries the original
    [article.Content]: the calls made are an initial part of the three
    stages, each built from the content the handler received.  When the
    three calls succeed, all three were sent the original content and the
    content field becomes the output of the third call, whatever the first
    two returned.  In every case the field ends as the original content or
    as the output of the third call, never as that of the first or second. *)
Theorem content_stages_resend_original (article : NewsArticle) :
  Forall (fun c => req_Content (snd c) = Content article) (fst (contentRoutine article))
  /\ (exists n, fst (contentRoutine article)
                = take n [stage1 article; stage2 article; stage3 article])
  /\ (Content (transformed article) = Content article
      \/ fetch (stage3 article) = Ok (Content (transformed article)))
  /\ (forall r1 r2 r3,
        fetch (stage1 article) = Ok r1 ->
        fetch (stage2 article) = Ok r2 ->
        fetch (stage3 article) = Ok r3 ->
        fst (contentRoutine article) = [stage1 article; stage2 article; stage3 article]
        /\ Content (transformed article) = r3).
Proof.
  unfold Transformer.transformed. rewrite contentRoutine_cases.
  split; [|split; [|split]].
  - destruct (fetch (stage1 article)); [destruct (fetch (stage2 article))|];
      simpl; repeat constructor.
  - destruct (fetch (stage1 article)); [destruct (fetch (stage2 article))|].
    + by exists 3%nat.
    + by exists 2%nat.
    + by exists 1%nat.
  - destruct (fetch (stage1 article)); [|by left].
    destruct (fetch (stage2 article)); [|by left].
    destruct (fetch (stage3 article)) eqn:H3; [by right | by left].
  - intros r1 r2 r3 -> -> ->. done.
Qed.

(** C4: the handler's Go error is [nil] on every input.  For a request
    that parses to an article the answer is status 200 with the rendered
    Markdown of the article after the barrier; a sub-pipeline one of whose
    calls failed leaves its field as the handler received it, so that with
    both sub-pipelines failed the Markdown is that of the original article. *)
Theorem Handler_survives_cleaning_failures (requestBody : string) :
  error (Handler requestBody) = None
  /\ (forall article, Unmarshal requestBody = Some article ->
        StatusCode (response (Handler requestBody)) = StatusOK
        /\ Body (response (Handler requestBody))
           = ConvertToMarkdown (transformed article)
        /\ Title (transformed article) = Title article
        /\ (forall c e, c ∈ fst (contentRoutine article) -> fetch c = Err e ->
              Content (transformed article) = Content article)
        /\ (forall c e, c ∈ fst (dateRoutine article) -> fetch c = Err e ->
              Date (transformed article) = Date article)
        /\ ((exists c e, c ∈ fst (contentRoutine article) /\ fetch c = Err e) ->
            (exists c e, c ∈ fst (dateRoutine article) /\ fetch c = Err e) ->
            Body (response (Handler requestBody)) = ConvertToMarkdown article)).
Proof.
  assert (Hcontent : forall article c e,
            c ∈ fst (contentRoutine article) -> fetch c = Err e ->
            Content (transformed article) = Content article).
  { intros article c e. unfold Transformer.transformed.
    rewrite contentRoutine_cases.
    destruct (fetch (stage1 article)) eqn:H1; [|done].
    destruct (fetch (stage2 article)) eqn:H2; [|done].
    destruct (fetch (stage3 article)) eqn:H3; [|done].
    simpl. intros Hin He. exfalso.
    repeat (apply elem_of_cons in Hin as [->|Hin]; [congruence|]).
    by apply elem_of_nil in Hin. }
  assert (Hdate : forall article c e,
            c ∈ fst (dateRoutine article) -> fetch c = Err e ->
            Date (transformed article) = Date article).
  { intros article c e. unfold Transformer.transformed.
    rewrite dateRoutine_cases. simpl.
    intros ->%list_elem_of_singleton He. by rewrite He. }
  unfold Transformer.Handler.
  destruct (Unmarshal requestBody) as [article|] eqn:Hparse.
  - rewrite ConvertToMarkdown_not_empty. split; [done|].
    intros ? [= <-]. simpl.
    split; [done | split; [done | split; [done |]]].
    split; [by apply Hcontent | split; [by apply Hdate |]].
    intros (c & e & Hc & He) (d & e' & Hd & He').
    f_equal. destruct article as [t ct dt].
    pose proof (Hcontent _ _ _ Hc He) as Hc'.
    pose proof (Hdate _ _ _ Hd He') as Hd'.
    unfold Transformer.transformed in *. simpl in *. by rewrite Hc', Hd'.
  - split; [done|]. intros ? [=].
Qed.

End Service.

End TransformerFacts.

(** ** The Atomic Publisher *)

Module PublisherFacts.
Import Publisher GoFacts.

(** *** Listing *)

Lemma ListFiles_loop_ok (paginator : list Page) : forall files,
  Forall (fun p => is_ok p = true) paginator ->
  ListFiles_loop paginator files = Ok (files ++ concat (map page_keys paginator)).
Proof.
  induction paginator as [|page rest IH]; intros files Hall; simpl.
  - by rewrite app_nil_r.
  - apply Forall_cons in Hall as [Hp Hrest].
    destruct page as [contents|e]; [|discriminate]. simpl.
    rewrite IH by done. by rewrite app_assoc.
Qed.

Lemma ListFiles_loop_err (paginator : list Page) : forall files,
  Exists (fun p => is_ok p = false) paginator ->
  exists e, ListFiles_loop paginator files = Err e.
Proof.
  induction paginator as [|page rest IH]; intros files Hex.
  - by apply Exists_nil in Hex.
  - simpl. destruct page as [contents|e]; [|eauto].
    apply Exists_cons in Hex as [Hp|Hrest]; [discriminate | eauto].
Qed.

Lemma ListFiles_loop_returns (paginator : list Page) : forall files result,
  ListFiles_loop paginator files = Ok result ->
  Forall (fun p => is_ok p = true) paginator.
Proof.
  induction paginator as [|page rest IH]; intros files result H; [constructor|].
  simpl in H. destruct page as [contents|e]; [|discriminate].
  constructor; [done | eauto].
Qed.

Section Service.

Context {State : Type}.
Variable Getenv : string -> string.
Variable LoadDefaultConfig : string -> Result unit.
Variable today : string.
Variable ListObjectsV2 : string -> string -> list Page.
Variable GetObject : string -> string -> Result (Result string).
Variable git : GitService State.
Variable rangeMap : gmap string string -> list (string * string).

Local Abbreviation ListFiles := (ListFiles ListObjectsV2).
Local Abbreviation DownloadFile := (DownloadFile GetObject).
Local Abbreviation treeEntries := (treeEntries rangeMap).
Local Abbreviation UploadFiles := (UploadFiles git rangeMap).
Local Abbreviation githubFilePath := (githubFilePath today).
Local Abbreviation collect := (collect today GetObject).
Local Abbreviation Handler :=
  (Handler Getenv LoadDefaultConfig today ListObjectsV2 GetObject git rangeMap).
Local Abbreviation downloaded := (downloaded GetObject).
Local Abbreviation entry_of := (entry_of today GetObject).
Local Abbreviation configured := (configured Getenv).

(** C7: [ListFiles] walks the whole listing.  When every page can be
    fetched it returns the keys of all pages, in order; when some page cannot
    be fetched it returns an error; and a result it returns holds every key
    of every page of the listing. *)
Theorem ListFiles_exhausts_pages (bucket prefix : string) :
  let pages := ListObjectsV2 bucket prefix in
  (Forall (fun p => is_ok p = true) pages ->
     ListFiles bucket prefix = Ok (concat (map page_keys pages)))
  /\ (Exists (fun p => is_ok p = false) pages ->
        exists e, ListFiles bucket prefix = Err e)
  /\ (forall files, ListFiles bucket prefix = Ok files ->
        forall page key, page ∈ pages -> key ∈ page_keys page -> key ∈ files).
Proof.
  cbv zeta. unfold Publisher.ListFiles. split; [|split].
  - intros Hall. by rewrite ListFiles_loop_ok.
  - apply ListFiles_loop_err.
  - intros files Hret page key Hpage Hkey.
    pose proof (ListFiles_loop_returns _ _ _ Hret) as Hall.
    rewrite (ListFiles_loop_ok _ _ Hall) in Hret. simplify_eq. simpl.
    apply list_elem_of_In, in_concat. exists (page_keys page).
    split; [by apply in_map, list_elem_of_In | by apply list_elem_of_In].
Qed.

(** *** The batch commit *)

(** [UploadFiles], by the outcome of its remote calls. *)
Lemma UploadFiles_cases Owner Repo files msg s :
  let c1 := CallGetRef Owner Repo "heads/main" in
  UploadFiles Owner Repo files msg (s, []) =
  match GetRef git Owner Repo "heads/main" s with
  | (Err e, s1) => (inl (StepGetRef, e), (s1, [c1]))
  | (Ok ref, s1) =>
    let c2 := CallGetTree Owner Repo (Object_SHA ref) true in
    match GetTree git Owner Repo (Object_SHA ref) true s1 with
    | (Err e, s2) => (inl (StepGetTree, e), (s2, [c1; c2]))
    | (Ok baseTree, s2) =>
      let entries := treeEntries files in
      let c3 := CallCreateTree Owner Repo (Tree_SHA baseTree) entries in
      match CreateTree git Owner Repo (Tree_SHA baseTree) entries s2 with
      | (Err e, s3) => (inl (StepCreateTree, e), (s3, [c1; c2; c3]))
      | (Ok newTree, s3) =>
        let newCommit := mkCommit "" msg newTree [Object_SHA ref] in
        let c4 := CallCreateCommit Owner Repo newCommit in
        match CreateCommit git Owner Repo newCommit s3 with
        | (Err e, s4) => (inl (StepCreateCommit, e), (s4, [c1; c2; c3; c4]))
        | (Ok commit, s4) =>
          let ref' := mkReference (Ref ref) (Commit_SHA commit) in
          let c5 := CallUpdateRef Owner Repo ref' false in
          match UpdateRef git Owner Repo ref' false s4 with
          | (Err e, s5) => (inl (StepUpdateRef, e), (s5, [c1; c2; c3; c4; c5]))
          | (Ok _, s5) => (inr tt, (s5, [c1; c2; c3; c4; c5]))
          end
        end
      end
    end
  end.
Proof.
  cbv zeta. unfold Publisher.UploadFiles, gbind, remote, gret. simpl.
  destruct (GetRef git _ _ _ s) as [[ref|e] s1]; [|done]. simpl.
  destruct (GetTree git _ _ _ _ s1) as [[baseTree|e] s2]; [|done]. simpl.
  destruct (CreateTree git _ _ _ _ s2) as [[newTree|e] s3]; [|done]. simpl.
  destruct (CreateCommit git _ _ _ s3) as [[commit|e] s4]; [|done]. simpl.
  destruct (UpdateRef git _ _ _ _ s4) as [[ref'|e] s5]; done.
Qed.

(** C1: the reference update is the fifth and last remote call, and it is
    made only after [GetRef], [GetTree], [CreateTree] and [CreateCommit]
    have all succeeded.  A successful upload has made it.  An error from
    one of the first four steps means no reference update was sent; the
    branch head of a service on which only [UpdateRef] moves the branch is
    then the one from before the call. *)
Theorem UploadFiles_updates_ref_last Owner Repo files msg s r s' trace :
  UploadFiles Owner Repo files msg (s, []) = (r, (s', trace)) ->
  (existsb is_UpdateRef trace = true ->
     exists ref baseTree newTree commit s1 s2 s3 s4,
       GetRef git Owner Repo "heads/main" s = (Ok ref, s1)
       /\ GetTree git Owner Repo (Object_SHA ref) true s1 = (Ok baseTree, s2)
       /\ CreateTree git Owner Repo (Tree_SHA baseTree) (treeEntries files) s2
          = (Ok newTree, s3)
       /\ CreateCommit git Owner Repo
            (mkCommit "" msg newTree [Object_SHA ref]) s3 = (Ok commit, s4)
       /\ trace =
          [CallGetRef Owner Repo "heads/main";
           CallGetTree Owner Repo (Object_SHA ref) true;
           CallCreateTree Owner Repo (Tree_SHA baseTree) (treeEntries files);
           CallCreateCommit Owner Repo (mkCommit "" msg newTree [Object_SHA ref]);
           CallUpdateRef Owner Repo
             (mkReference (Ref ref) (Commit_SHA commit)) false])
  /\ (r = inr tt -> existsb is_UpdateRef trace = true)
  /\ (forall step e, r = inl (step, e) -> step <> StepUpdateRef ->
        existsb is_UpdateRef trace = false
        /\ (OnlyUpdateRefMovesHead git -> branch_head git s' = branch_head git s)).
Proof.
  rewrite UploadFiles_cases. cbv zeta.
  destruct (GetRef git _ _ _ s) as [[ref|e1] s1] eqn:H1.
  2:{ intros [= <- <- <-]. split; [done | split; [done|]].
      intros step e [= <- <-] _. split; [done|]. intros L.
      by rewrite <- (GetRef_head _ L Owner Repo "heads/main" s), H1. }
  destruct (GetTree git _ _ _ _ s1) as [[baseTree|e2] s2] eqn:H2.
  2:{ intros [= <- <- <-]. split; [done | split; [done|]].
      intros step e [= <- <-] _. split; [done|]. intros L.
      rewrite <- (GetRef_head _ L Owner Repo "heads/main" s), H1. simpl.
      by rewrite <- (GetTree_head _ L Owner Repo (Object_SHA ref) true s1), H2. }
  destruct (CreateTree git _ _ _ _ s2) as [[newTree|e3] s3] eqn:H3.
  2:{ intros [= <- <- <-]. split; [done | split; [done|]].
      intros step e [= <- <-] _. split; [done|]. intros L.
      rewrite <- (GetRef_head _ L Owner Repo "heads/main" s), H1. simpl.
      rewrite <- (GetTree_head _ L Owner Repo (Object_SHA ref) true s1), H2. simpl.
      by rewrite <- (CreateTree_head _ L Owner Repo (Tree_SHA baseTree)
                      (treeEntries files) s2), H3. }
  destruct (CreateCommit git _ _ _ s3) as [[commit|e4] s4] eqn:H4.
  2:{ intros [= <- <- <-]. split; [done | split; [done|]].
      intros step e [= <- <-] _. split; [done|]. intros L.
      rewrite <- (GetRef_head _ L Owner Repo "heads/main" s), H1. simpl.
      rewrite <- (GetTree_head _ L Owner Repo (Object_SHA ref) true s1), H2. simpl.
      rewrite <- (CreateTree_head _ L Owner Repo (Tree_SHA baseTree)
                   (treeEntries files) s2), H3. simpl.
      by rewrite <- (CreateCommit_head _ L Owner Repo
                      (mkCommit "" msg newTree [Object_SHA ref]) s3), H4. }
  assert (Hfull : forall t,
            t = [CallGetRef Owner Repo "heads/main";
                 CallGetTree Owner Repo (Object_SHA ref) true;
                 CallCreateTree Owner Repo (Tree_SHA baseTree) (treeEntries files);
                 CallCreateCommit Owner Repo (mkCommit "" msg newTree [Object_SHA ref]);
                 CallUpdateRef Owner Repo
                   (mkReference (Ref ref) (Commit_SHA commit)) false] ->
            exists ref0 baseTree0 newTree0 commit0 s10 s20 s30 s40,
              (Ok ref, s1) = (Ok ref0, s10)
              /\ GetTree git Owner Repo (Object_SHA ref0) true s10 = (Ok baseTree0, s20)
              /\ CreateTree git Owner Repo (Tree_SHA baseTree0) (treeEntries files) s20
                 = (Ok newTree0, s30)
              /\ CreateCommit git Owner Repo
                   (mkCommit "" msg newTree0 [Object_SHA ref0]) s30 = (Ok commit0, s40)
              /\ t =
                 [CallGetRef Owner Repo "heads/main";
                  CallGetTree Owner Repo (Object_SHA ref0) true;
                  CallCreateTree Owner Repo (Tree_SHA baseTree0) (treeEntries files);
                  CallCreateCommit Owner Repo
                    (mkCommit "" msg newTree0 [Object_SHA ref0]);
                  CallUpdateRef Owner Repo
                    (mkReference (Ref ref0) (Commit_SHA commit0)) false]).
  { intros t ->. by exists ref, baseTree, newTree, commit, s1, s2, s3, s4. }
  destruct (UpdateRef git _ _ _ _ s4) as [[ref'|e5] s5] eqn:H5;
    intros [= <- <- <-]; (split; [intros _; by apply Hfull|]);
    (split; [done|]); intros step e [= <- <-] Hne; done.
Qed.

(** C6: when the listing of the day's prefix is empty, the handler makes no
    remote call to the hosting service at all (no tree, no commit, no
    reference update), leaves its state as it was, and answers 200 with a
    [nil] error. *)
Theorem Handler_empty_listing_is_noop (s : State) :
  configured ->
  LoadDefaultConfig (Getenv "AWS_REGION") = Ok tt ->
  ListFiles (Getenv "S3_BUCKET_NAME") ("news/" +:+ today +:+ "/") = Ok [] ->
  calls (Handler s) = []
  /\ github (Handler s) = s
  /\ exists body,
       outcome (Handler s) = Returns (mkResponse StatusOK body [], None).
Proof.
  intros (H1 & H2 & H3 & H4 & H5) Hcfg Hlist. unfold Publisher.Handler.
  apply String.eqb_neq in H1, H2, H3, H4, H5.
  rewrite H1, H2, H3, H4, H5, Hcfg, Hlist. simpl.
  change (collect _ _ []) with (∅ : gmap string string).
  rewrite map_size_empty. simpl. eauto.
Qed.

(** *** The batch and its tree entries *)

Local Abbreviation batch := (batch today GetObject).

Lemma collect_as_batch bucket prefix files :
  collect bucket prefix files = fold_left insert_pair (batch bucket prefix files) ∅.
Proof.
  unfold Publisher.collect, Publisher.batch, Publisher.downloaded.
  generalize (∅ : gmap string string).
  induction files as [|key files IH]; intros m; [done|].
  rewrite filter_cons. simpl.
  destruct (DownloadFile bucket key) as [bytes|e] eqn:Hd; simpl.
  - rewrite Hd. apply IH.
  - apply IH.
Qed.

Lemma dom_fold_insert (l : list (string * string)) : forall (m : gmap string string) p,
  p ∈ dom (fold_left insert_pair l m) <-> p ∈ l.*1 \/ p ∈ dom m.
Proof.
  induction l as [|[k v] l IH]; intros m p; simpl.
  - rewrite elem_of_nil. tauto.
  - rewrite IH. unfold insert_pair. simpl.
    rewrite dom_insert_L, elem_of_cons, elem_of_union, elem_of_singleton. tauto.
Qed.

Lemma map_to_list_fold_insert (l : list (string * string)) :
  forall m : gmap string string,
  NoDup l.*1 -> (forall p, p ∈ l.*1 -> m !! p = None) ->
  map_to_list (fold_left insert_pair l m) ≡ₚ l ++ map_to_list m.
Proof.
  induction l as [|[k v] l IH]; intros m Hnd Hfresh; [done|]. simpl.
  simpl in Hnd. apply NoDup_cons in Hnd as [Hk Hnd].
  rewrite IH; [| done |].
  - unfold insert_pair. simpl. rewrite map_to_list_insert.
    + by rewrite Permutation_middle.
    + apply Hfresh. simpl. apply elem_of_cons. by left.
  - intros p Hp. unfold insert_pair. simpl. rewrite lookup_insert_ne.
    + apply Hfresh. simpl. apply elem_of_cons. by right.
    + by intros ->.
Qed.

Lemma batch_paths bucket prefix files :
  (batch bucket prefix files).*1
  = map (githubFilePath prefix) (downloaded bucket files).
Proof. unfold Publisher.batch. rewrite <- list_fmap_compose. done. Qed.

(** The entries built from the collected map. *)
Lemma treeEntries_collect bucket prefix files :
  (forall m, rangeMap m ≡ₚ map_to_list m) ->
  let entries := treeEntries (collect bucket prefix files) in
  NoDup (map Path entries)
  /\ (forall p, p ∈ map Path entries <->
        exists key, key ∈ files /\ is_ok (DownloadFile bucket key) = true
                    /\ githubFilePath prefix key = p)
  /\ (NoDup (map (githubFilePath prefix) (downloaded bucket files)) ->
        entries ≡ₚ map (entry_of bucket prefix) (downloaded bucket files)).
Proof.
  intros Hrange. cbv zeta. unfold Publisher.treeEntries.
  set (m := collect bucket prefix files).
  assert (Hpaths : map Path
            (map (fun '(filePath, content) =>
                    mkTreeEntry filePath "blob" content "100644") (rangeMap m))
          ≡ₚ (map_to_list m).*1).
  { rewrite Hrange. rewrite map_map. apply eq_subrelation; [apply _|].
    apply map_ext. by intros [? ?]. }
  split; [|split].
  - rewrite Hpaths. apply NoDup_fst_map_to_list.
  - intros p. rewrite Hpaths.
    assert (p ∈ (map_to_list m).*1 <-> p ∈ dom m) as ->.
    { rewrite elem_of_dom. split.
      - intros [[p' c] [-> Hin]]%list_elem_of_fmap.
        apply elem_of_map_to_list in Hin. eauto.
      - intros [c Hc]. apply list_elem_of_fmap. exists (p, c).
        split; [done | by apply elem_of_map_to_list]. }
    subst m. rewrite collect_as_batch, dom_fold_insert, batch_paths.
    rewrite dom_empty_L, list_elem_of_fmap.
    unfold Publisher.downloaded. setoid_rewrite list_elem_of_filter.
    split.
    + intros [(key & -> & Hok & Hin)|[]%elem_of_empty]. eauto.
    + intros (key & Hin & Hok & <-). left. eauto.
  - intros Hnd. rewrite Hrange. subst m. rewrite collect_as_batch.
    rewrite map_to_list_fold_insert.
    + rewrite map_to_list_empty, app_nil_r. unfold Publisher.batch.
      by rewrite map_map.
    + by rewrite batch_paths.
    + intros. apply lookup_empty.
Qed.

(** The handler's remote calls when the listing succeeded. *)
Lemma Handler_created_entries (s : State) (files : list string) es :
  configured ->
  LoadDefaultConfig (Getenv "AWS_REGION") = Ok tt ->
  ListFiles (Getenv "S3_BUCKET_NAME") ("news/" +:+ today +:+ "/") = Ok files ->
  es ∈ created_entries (calls (Handler s)) ->
  es = treeEntries (collect (Getenv "S3_BUCKET_NAME") ("news/" +:+ today +:+ "/") files).
Proof.
  intros (H1 & H2 & H3 & H4 & H5) Hcfg Hlist. unfold Publisher.Handler.
  apply String.eqb_neq in H1, H2, H3, H4, H5.
  rewrite H1, H2, H3, H4, H5, Hcfg, Hlist. simpl.
  destruct (0 <? size _)%nat; [|by intros ?%elem_of_nil].
  rewrite UploadFiles_cases. cbv zeta.
  destruct (GetRef git _ _ _ s) as [[ref|e1] s1];
    [|by intros ?%elem_of_nil].
  destruct (GetTree git _ _ _ _ s1) as [[baseTree|e2] s2];
    [|by intros ?%elem_of_nil].
  destruct (CreateTree git _ _ _ _ s2) as [[newTree|e3] s3];
    [|by intros ->%list_elem_of_singleton].
  destruct (CreateCommit git _ _ _ s3) as [[commit|e4] s4];
    [|by intros ->%list_elem_of_singleton].
  destruct (UpdateRef git _ _ _ _ s4) as [[ref'|e5] s5];
    by intros ->%list_elem_of_singleton.
Qed.

(** C2 (as the code has it): in every run whose listing succeeds, the
    entries handed to [CreateTree] have pairwise distinct paths; a path is
    among them exactly when it is the repository path of a listed key whose
    download succeeded (a key whose download failed contributes nothing);
    and when the downloaded keys have pairwise distinct repository paths,
    the entries are, up to order, exactly one entry per downloaded key,
    holding that key's path and bytes. *)
Theorem Handler_tree_entries_match_downloads (s : State) (files : list string) es :
  configured ->
  LoadDefaultConfig (Getenv "AWS_REGION") = Ok tt ->
  ListFiles (Getenv "S3_BUCKET_NAME") ("news/" +:+ today +:+ "/") = Ok files ->
  (forall m, rangeMap m ≡ₚ map_to_list m) ->
  es ∈ created_entries (calls (Handler s)) ->
  let bucket := Getenv "S3_BUCKET_NAME" in
  let prefix := "news/" +:+ today +:+ "/" in
  NoDup (map Path es)
  /\ (forall p, p ∈ map Path es <->
        exists key, key ∈ files /\ is_ok (DownloadFile bucket key) = true
                    /\ githubFilePath prefix key = p)
  /\ (NoDup (map (githubFilePath prefix) (downloaded bucket files)) ->
        es ≡ₚ map (entry_of bucket prefix) (downloaded bucket files)).
Proof.
  intros Henv Hcfg Hlist Hrange Hes.
  rewrite (Handler_created_entries _ _ _ Henv Hcfg Hlist Hes).
  by apply treeEntries_collect.
Qed.

(** *** Repository paths *)

(** The file name the store uploader gives to article [i] of a category. *)
Lemma stored_name_plain (date category : string) (i : nat) :
  is_date date = true -> slash_free category = true ->
  plain_elem (date +:+ "_" +:+ category +:+ "_" +:+ Itoa i +:+ ".md") = true.
Proof.
  intros Hd Hc. pose proof (is_date_plain _ Hd) as Hp.
  assert (Hs : slash_free date = true).
  { unfold plain_elem in Hp. by apply andb_true_iff in Hp as [_ ?]. }
  unfold plain_elem. apply andb_true_iff. split.
  - unfold is_date in Hd.
    do 3 (destruct date as [|? date]; [done|]).
    rewrite !append_cons. simpl.
    by repeat (destruct (Ascii.eqb _ _); simpl).
  - rewrite !slash_free_app, Hs, Hc, Itoa_slash_free. reflexivity.
Qed.

(** C8 (as the code has it): the key that the store uploader derives for
    article [i] of a category, [news/{date}/{date}_{category}_{i}.md], is
    mapped to the repository path [{date}/{date}_{category}_{i}.md]: the
    prefix is stripped, the file name is kept whole, index included, and
    re-rooted under the date folder. *)
Theorem githubFilePath_keeps_file_name (category : string) (i : nat) :
  is_date today = true -> slash_free category = true ->
  githubFilePath ("news/" +:+ today +:+ "/")
    (S3Upload.filename today today (category +:+ "_" +:+ Itoa i))
  = today +:+ "/" +:+ today +:+ "_" +:+ category +:+ "_" +:+ Itoa i +:+ ".md".
Proof.
  intros Hd Hc. unfold Publisher.githubFilePath, S3Upload.filename.
  replace ("news/" +:+ today +:+ "/" +:+ today +:+ "_"
           +:+ (category +:+ "_" +:+ Itoa i) +:+ ".md")
    with (("news/" +:+ today +:+ "/")
          +:+ (today +:+ "_" +:+ category +:+ "_" +:+ Itoa i +:+ ".md"))
    by (by rewrite !append_assoc).
  rewrite TrimPrefix_app.
  rewrite Join_plain; [done | by apply is_date_plain | by apply stored_name_plain].
Qed.

End Service.

End PublisherFacts.

(** ** The Orchestrator and its fan-out *)

Module OrchestratorFacts.
Import Orchestrator.

(** Filtering a list of logs. *)
Lemma filter_concat {A} (P : A -> Prop) `{forall x, Decision (P x)}
    (ls : list (list A)) :
  filter P (concat ls) = concat (map (filter P) ls).
Proof.
  induction ls as [|l ls IH]; [done|]. simpl. by rewrite filter_app, IH.
Qed.

Lemma filter_all {A} (P : A -> Prop) `{forall x, Decision (P x)} (l : list A) :
  Forall P l -> filter P l = l.
Proof.
  induction 1 as [|x l Hx _ IH]; [done|].
  rewrite filter_cons, decide_True by done. by rewrite IH.
Qed.

Lemma filter_none {A} (P : A -> Prop) `{forall x, Decision (P x)} (l : list A) :
  Forall (fun x => ~ P x) l -> filter P l = [].
Proof.
  induction 1 as [|x l Hx _ IH]; [done|].
  by rewrite filter_cons, decide_False.
Qed.

Section Service.

Variable Getenv : string -> string.
Variable QueryUnescape : string -> Result string.
Variable NewRequest : string -> string -> Result unit.
Variable Do : CallId -> HttpRequest -> HttpResult.
Variable Marshal : NewsArticle -> Result string.
Variable UnmarshalArticles : string -> Result (list NewsArticle).
Variable utf8_Valid : string -> bool.
Variable ReplaceAllANSI : string -> string.
Variable interleave : list (list Event) -> list Event.

Local Abbreviation Scrape :=
  (Scrape Getenv QueryUnescape NewRequest Do UnmarshalArticles).
Local Abbreviation ConvertToMarkdown :=
  (ConvertToMarkdown Getenv QueryUnescape NewRequest Do Marshal).
Local Abbreviation UploadToS3 :=
  (UploadToS3 Getenv QueryUnescape NewRequest utf8_Valid ReplaceAllANSI).
Local Abbreviation UploadToGitHub :=
  (UploadToGitHub Getenv QueryUnescape NewRequest).
Local Abbreviation articleRoutine :=
  (articleRoutine Getenv QueryUnescape NewRequest Do Marshal utf8_Valid
     ReplaceAllANSI).
Local Abbreviation processArticles :=
  (processArticles Getenv QueryUnescape NewRequest Do Marshal UnmarshalArticles
     utf8_Valid ReplaceAllANSI interleave).
Local Abbreviation RunAll :=
  (RunAll Getenv QueryUnescape NewRequest Do Marshal UnmarshalArticles
     utf8_Valid ReplaceAllANSI interleave).
Local Abbreviation Handler :=
  (Handler Getenv QueryUnescape NewRequest Do Marshal UnmarshalArticles
     utf8_Valid ReplaceAllANSI interleave).

(** Every request carries the identity of the call that made it. *)
Lemma Scrape_events at_ url :
  Forall (fun ev => fst ev = at_) (snd (Scrape at_ url)).
Proof.
  unfold Orchestrator.Scrape.
  destruct (QueryUnescape _); [|constructor].
  destruct (NewRequest _ _); [|constructor].
  simpl. by repeat constructor.
Qed.

Lemma ConvertToMarkdown_events at_ article :
  Forall (fun ev => fst ev = at_) (snd (ConvertToMarkdown at_ article)).
Proof.
  unfold Orchestrator.ConvertToMarkdown.
  destruct (QueryUnescape _); [|constructor].
  destruct (Marshal _); [|constructor].
  destruct (NewRequest _ _); [|constructor].
  simpl. by repeat constructor.
Qed.

Lemma UploadToS3_events at_ markdown category i :
  Forall (fun ev => fst ev = at_) (UploadToS3 at_ markdown category i).
Proof.
  unfold Orchestrator.UploadToS3.
  destruct (QueryUnescape _); [|constructor].
  destruct (NewRequest _ _); [|constructor].
  by repeat constructor.
Qed.


(** The goroutine of article [i], by the outcome of the conversion. *)
Lemma articleRoutine_cases article category i :
  articleRoutine article category i =
  snd (ConvertToMarkdown (ConvertCall category i) article)
  ++ match fst (ConvertToMarkdown (ConvertCall category i) article) with
     | Ok markdown => UploadToS3 (S3Call category i) markdown category i
     | Err _ => []
     end.
Proof.
  unfold Orchestrator.articleRoutine.
  destruct (ConvertToMarkdown _ _) as [[markdown|e] log]; simpl; [done|].
  by rewrite app_nil_r.
Qed.

Lemma articleRoutine_events article category i :
  Forall (fun ev => fst ev = ConvertCall category i \/ fst ev = S3Call category i)
         (articleRoutine article category i).
Proof.
  rewrite articleRoutine_cases. apply Forall_app. split.
  - eapply Forall_impl; [apply ConvertToMarkdown_events|]. simpl. auto.
  - destruct (fst _); [|constructor].
    eapply Forall_impl; [apply UploadToS3_events|]. simpl. auto.
Qed.

Hypothesis interleave_merges : forall logs, interleave logs ≡ₚ concat logs.

(** The category goroutine, by the outcome of the extraction. *)
Lemma processArticles_cases url category :
  processArticles url category ≡ₚ
  snd (Scrape (ScrapeCall category) url)
  ++ match fst (Scrape (ScrapeCall category) url) with
     | Ok articles =>
         concat (imap (fun i article => articleRoutine article category i) articles)
     | Err _ => []
     end.
Proof.
  unfold Orchestrator.processArticles.
  destruct (Scrape _ _) as [[articles|e] log]; simpl.
  - by rewrite interleave_merges.
  - by rewrite app_nil_r.
Qed.

Lemma processArticles_events url category :
  Forall (fun ev => event_category ev = Some category)
         (processArticles url category).
Proof.
  rewrite processArticles_cases. apply Forall_app. split.
  - eapply Forall_impl; [apply Scrape_events|].
    intros [id req] Hid. simpl in Hid. unfold event_category. simpl. by rewrite Hid.
  - destruct (fst _) as [articles|]; [|constructor].
    apply Forall_forall. intros ev Hin.
    apply list_elem_of_In, in_concat in Hin as (log & Hlog & Hev).
    apply list_elem_of_In, elem_of_lookup_imap in Hlog as (i & article & -> & _).
    apply list_elem_of_In in Hev.
    pose proof (articleRoutine_events article category i) as Hall.
    rewrite Forall_forall in Hall. unfold event_category.
    destruct (Hall _ Hev) as [-> | ->]; done.
Qed.

(** The fan-out keeps, for each category of the mapping, exactly the
    events of that category's goroutine. *)
Lemma RunAll_events_of (categories : gmap string string) c url :
  categories !! c = Some url ->
  events_of c (RunAll categories) ≡ₚ processArticles url c.
Proof.
  intros Hc. unfold events_of, Orchestrator.RunAll.
  rewrite interleave_merges.
  rewrite <- (map_to_list_delete categories c url Hc). simpl.
  rewrite filter_app, filter_concat.
  rewrite filter_all by apply processArticles_events.
  rewrite (proj2 (concat_nil_Forall _)); [by rewrite app_nil_r|].
  apply Forall_map, Forall_map. apply Forall_forall.
  intros [c' url'] Hin%elem_of_map_to_list.
  apply filter_none.
  eapply Forall_impl; [apply processArticles_events|].
  intros ev Hev. simpl in Hev. rewrite Hev. intros [= ->].
  by rewrite lookup_delete_eq in Hin.
Qed.

(** Where the events of one article's goroutine can come from. *)
Lemma RunAll_article_events (categories : gmap string string) c url articles ev :
  categories !! c = Some url ->
  fst (Scrape (ScrapeCall c) url) = Ok articles ->
  ev ∈ RunAll categories ->
  forall i, fst ev = ConvertCall c i \/ fst ev = S3Call c i ->
  exists article, articles !! i = Some article /\ ev ∈ articleRoutine article c i.
Proof.
  intros Hc Hscrape Hev i Hid.
  assert (Hcat : event_category ev = Some c).
  { unfold event_category. by destruct Hid as [-> | ->]. }
  assert (Hin : ev ∈ events_of c (RunAll categories)).
  { unfold events_of. by apply list_elem_of_filter. }
  rewrite (RunAll_events_of _ _ _ Hc), processArticles_cases, Hscrape in Hin.
  apply elem_of_app in Hin as [Hin|Hin].
  - pose proof (Scrape_events (ScrapeCall c) url) as Hall.
    rewrite Forall_forall in Hall. specialize (Hall _ Hin).
    destruct Hid; congruence.
  - apply list_elem_of_In, in_concat in Hin as (log & Hlog & Hin).
    apply list_elem_of_In, elem_of_lookup_imap in Hlog as (j & article & -> & Hj).
    apply list_elem_of_In in Hin.
    pose proof (articleRoutine_events article c j) as Hall.
    rewrite Forall_forall in Hall. specialize (Hall _ Hin).
    assert (j = i) as -> by (destruct Hid, Hall; congruence).
    eauto.
Qed.

(** C5: whatever the remote side answers (every extraction, conversion,
    store upload and the publish call may fail), the handler returns status
    200 and a [nil] error; the publish request, when one is sent, comes
    after the whole fan-out. *)
Theorem Handler_always_reports_success :
  StatusCode (response Handler) = StatusOK
  /\ error Handler = None
  /\ events Handler = RunAll urls ++ UploadToGitHub.
Proof.
  unfold Orchestrator.Handler. cbv zeta. simpl. auto.
Qed.

End Service.

Section Isolation.

Variable Getenv : string -> string.
Variable QueryUnescape : string -> Result string.
Variable NewRequest : string -> string -> Result unit.
Variable Do : CallId -> HttpRequest -> HttpResult.
Variable Marshal : NewsArticle -> Result string.
Variable UnmarshalArticles : string -> Result (list NewsArticle).
Variable utf8_Valid : string -> bool.
Variable ReplaceAllANSI : string -> string.
Variable interleave : list (list Event) -> list Event.

Local Abbreviation Scrape d :=
  (Scrape Getenv QueryUnescape NewRequest d UnmarshalArticles).
Local Abbreviation ConvertToMarkdown d :=
  (ConvertToMarkdown Getenv QueryUnescape NewRequest d Marshal).
Local Abbreviation UploadToS3 :=
  (UploadToS3 Getenv QueryUnescape NewRequest utf8_Valid ReplaceAllANSI).
Local Abbreviation articleRoutine d :=
  (articleRoutine Getenv QueryUnescape NewRequest d Marshal utf8_Valid
     ReplaceAllANSI).
Local Abbreviation processArticles d il :=
  (processArticles Getenv QueryUnescape NewRequest d Marshal UnmarshalArticles
     utf8_Valid ReplaceAllANSI il).
Local Abbreviation RunAll d il :=
  (RunAll Getenv QueryUnescape NewRequest d Marshal UnmarshalArticles
     utf8_Valid ReplaceAllANSI il).

(** A category goroutine sees only the answers to its own calls. *)
Lemma processArticles_own_answers Do' interleave' url c :
  (forall logs, interleave logs ≡ₚ concat logs) ->
  (forall logs, interleave' logs ≡ₚ concat logs) ->
  (forall id req, event_category (id, req) = Some c -> Do' id req = Do id req) ->
  processArticles Do' interleave' url c ≡ₚ processArticles Do interleave url c.
Proof.
  intros Hil Hil' Hagree.
  rewrite (processArticles_cases _ _ _ Do' _ _ _ _ interleave' Hil').
  rewrite (processArticles_cases _ _ _ Do _ _ _ _ interleave Hil).
  assert (Hs : Scrape Do' (ScrapeCall c) url = Scrape Do (ScrapeCall c) url).
  { unfold Orchestrator.Scrape.
    destruct (QueryUnescape _); [|done]. destruct (NewRequest _ _); [|done].
    by rewrite Hagree. }
  rewrite Hs. apply Permutation_app_head.
  destruct (fst _) as [articles|]; [|done].
  apply eq_subrelation; [apply _|]. f_equal. apply imap_ext.
  intros i article _. simpl.
  unfold Orchestrator.articleRoutine, Orchestrator.ConvertToMarkdown.
  destruct (QueryUnescape _); [|done]. destruct (Marshal _); [|done].
  destruct (NewRequest _ _); [|done]. by rewrite Hagree.
Qed.

(** C9: for every mapping and every category [c] of it, the events of [c]
    in the log of the fan-out are exactly those of [c]'s own goroutine, and
    they are the same whatever is answered to the calls of the other
    categories.  When the extraction of [c] fails, nothing but the
    extraction request belongs to [c].  When it succeeds, the goroutine of
    every article ran; an article whose conversion fails sends no store
    upload, and one whose conversion succeeds sends the upload of the
    converted article.  The fan-out is a total function: it returns in all
    these cases. *)
Theorem RunAll_isolates_failures (categories : gmap string string) c url :
  (forall logs, interleave logs ≡ₚ concat logs) ->
  categories !! c = Some url ->
  events_of c (RunAll Do interleave categories)
    ≡ₚ processArticles Do interleave url c
  /\ (forall Do' interleave',
        (forall logs, interleave' logs ≡ₚ concat logs) ->
        (forall id req, event_category (id, req) = Some c ->
                        Do' id req = Do id req) ->
        events_of c (RunAll Do' interleave' categories)
          ≡ₚ events_of c (RunAll Do interleave categories))
  /\ (forall e, fst (Scrape Do (ScrapeCall c) url) = Err e ->
        events_of c (RunAll Do interleave categories)
          ≡ₚ snd (Scrape Do (ScrapeCall c) url))
  /\ (forall articles, fst (Scrape Do (ScrapeCall c) url) = Ok articles ->
        forall i article, articles !! i = Some article ->
          (forall ev, ev ∈ articleRoutine Do article c i ->
                      ev ∈ RunAll Do interleave categories)
          /\ (forall e,
                fst (ConvertToMarkdown Do (ConvertCall c i) article) = Err e ->
                forall ev, ev ∈ RunAll Do interleave categories ->
                           fst ev <> S3Call c i)
          /\ (forall markdown,
                fst (ConvertToMarkdown Do (ConvertCall c i) article) = Ok markdown ->
                forall ev, ev ∈ UploadToS3 (S3Call c i) markdown c i ->
                           ev ∈ RunAll Do interleave categories)).
Proof.
  intros Hil Hc.
  pose proof (RunAll_events_of Getenv QueryUnescape NewRequest Do Marshal
                UnmarshalArticles utf8_Valid ReplaceAllANSI interleave Hil
                categories c url Hc)
    as Hown.
  split; [exact Hown|]. split; [|split].
  - intros Do' interleave' Hil' Hagree.
    rewrite (RunAll_events_of Getenv QueryUnescape NewRequest Do' Marshal
               UnmarshalArticles utf8_Valid ReplaceAllANSI interleave' Hil'
               categories c url Hc).
    rewrite Hown. by apply processArticles_own_answers.
  - intros e He. rewrite Hown.
    rewrite (processArticles_cases _ _ _ Do _ _ _ _ interleave Hil), He.
    by rewrite app_nil_r.
  - intros articles Hs i article Hi.
    assert (Hrun : forall ev, ev ∈ articleRoutine Do article c i ->
                              ev ∈ RunAll Do interleave categories).
    { intros ev Hev.
      assert (Hin : ev ∈ events_of c (RunAll Do interleave categories)).
      { rewrite Hown, (processArticles_cases _ _ _ Do _ _ _ _ interleave Hil), Hs.
        apply elem_of_app. right.
        apply list_elem_of_In, in_concat. exists (articleRoutine Do article c i).
        split; [|by apply list_elem_of_In].
        apply list_elem_of_In.
        by apply (elem_of_lookup_imap_2
                    (fun i article => articleRoutine Do article c i)). }
      unfold events_of in Hin. by apply list_elem_of_filter in Hin as [_ ?]. }
    split; [exact Hrun | split].
    + intros e He ev Hev Hid.
      destruct (RunAll_article_events Getenv QueryUnescape NewRequest Do Marshal
                  UnmarshalArticles utf8_Valid ReplaceAllANSI interleave Hil
                  categories c url articles ev Hc Hs Hev i (or_intror Hid))
        as (article' & Hi' & Hin).
      assert (article' = article) as -> by congruence.
      rewrite articleRoutine_cases, He, app_nil_r in Hin.
      pose proof (ConvertToMarkdown_events Getenv QueryUnescape NewRequest Do
                    Marshal (ConvertCall c i) article) as Hall.
      rewrite Forall_forall in Hall. specialize (Hall _ Hin). congruence.
    + intros markdown Hm ev Hev. apply Hrun.
      rewrite articleRoutine_cases, Hm. apply elem_of_app. by right.
Qed.

End Isolation.

End OrchestratorFacts.

(** ** The statements at work on the concrete world *)

Module Runs.
Import Example.

Lemma getenv_configured : Publisher.configured getenv.
Proof. repeat split; vm_compute; discriminate. Qed.

Lemma hosting_moves_head_on_update_only broken :
  Publisher.OnlyUpdateRefMovesHead (hosting broken).
Proof.
  split; intros; simpl.
  - by destruct (broken Publisher.StepGetRef).
  - by destruct (broken Publisher.StepGetTree).
  - by destruct (broken Publisher.StepCreateTree).
  - by destruct (broken Publisher.StepCreateCommit).
Qed.

(** C1 at work: the service cannot create the tree; no reference update is
    sent and the head stays where it was. *)
Lemma failed_upload_leaves_head :
  existsb Publisher.is_UpdateRef (snd (snd failed_upload)) = false
  /\ fst (snd failed_upload) = "old-head".
Proof.
  destruct (PublisherFacts.UploadFiles_updates_ref_last (hosting tree_down)
              range_map "owner" "repo" one_file "message" "old-head"
              (fst failed_upload) (fst (snd failed_upload))
              (snd (snd failed_upload)) ltac:(vm_compute; reflexivity))
    as (_ & _ & H).
  destruct (H Publisher.StepCreateTree "502" ltac:(vm_compute; reflexivity)
              ltac:(discriminate)) as [Hno Hhead].
  split; [exact Hno|].
  exact (Hhead (hosting_moves_head_on_update_only tree_down)).
Defined.

(** C2 as stated fails: the second listed key cannot be downloaded, and no
    entry of the tree that is created carries its repository path. *)
Lemma listed_key_without_tree_entry :
  Publisher.ListFiles two_pages (getenv "S3_BUCKET_NAME") "news/2025-01-04/"
  = Ok [key_a; key_b]
  /\ Publisher.created_entries (Publisher.calls publisher_run)
     = [[Publisher.mkTreeEntry "2025-01-04/2025-01-04_politics_0.md" "blob"
           "# article" "100644"]]
  /\ exists key,
       key ∈ [key_a; key_b]
       /\ forall es e,
            es ∈ Publisher.created_entries (Publisher.calls publisher_run) ->
            e ∈ es ->
            Publisher.Path e
            <> Publisher.githubFilePath today "news/2025-01-04/" key.
Proof.
  assert (Hes : Publisher.created_entries (Publisher.calls publisher_run)
                = [[Publisher.mkTreeEntry "2025-01-04/2025-01-04_politics_0.md"
                      "blob" "# article" "100644"]])
    by (vm_compute; reflexivity).
  split; [vm_compute; reflexivity|]. split; [exact Hes|].
  exists key_b. split; [apply elem_of_cons; right; apply elem_of_cons; by left|].
  intros es e. rewrite Hes.
  intros ->%list_elem_of_singleton ->%list_elem_of_singleton.
  vm_compute. discriminate.
Qed.

(** Two listed keys with the same repository path end up in one entry,
    which holds the bytes of the one listed last. *)
Lemma twin_keys_share_one_entry :
  Publisher.created_entries (Publisher.calls twin_run)
  = [[Publisher.mkTreeEntry "2025-01-04/x.md" "blob" "news/2025-01-04//x.md"
        "100644"]].
Proof. vm_compute. reflexivity. Qed.

(** C2 as amended, at work on the run with the failed download. *)
Lemma created_entries_of_the_run :
  NoDup (map Publisher.Path
           [Publisher.mkTreeEntry "2025-01-04/2025-01-04_politics_0.md" "blob"
              "# article" "100644"])
  /\ [Publisher.mkTreeEntry "2025-01-04/2025-01-04_politics_0.md" "blob"
        "# article" "100644"]
     ≡ₚ map (Publisher.entry_of today get_object (getenv "S3_BUCKET_NAME")
               ("news/" +:+ today +:+ "/"))
          (Publisher.downloaded get_object (getenv "S3_BUCKET_NAME")
             [key_a; key_b]).
Proof.
  destruct (PublisherFacts.Handler_tree_entries_match_downloads getenv load_config
              today two_pages get_object (hosting all_up) range_map "old-head"
              [key_a; key_b]
              [Publisher.mkTreeEntry "2025-01-04/2025-01-04_politics_0.md" "blob"
                 "# article" "100644"]
              getenv_configured ltac:(reflexivity) ltac:(vm_compute; reflexivity)
              ltac:(intros m; reflexivity)
              ltac:(vm_compute; apply list_elem_of_here))
    as (Hnd & _ & Hperm).
  split; [exact Hnd|]. apply Hperm. vm_compute. apply NoDup_singleton.
Defined.

(** C3 at work: three successful stages. *)
Lemma third_stage_wins :
  fst (Transformer.contentRoutine getenv new_request gpt_up article)
  = [Transformer.stage1 getenv article; Transformer.stage2 getenv article;
     Transformer.stage3 getenv article]
  /\ Transformer.Content (Transformer.transformed getenv new_request gpt_up article)
     = "third".
Proof.
  destruct (TransformerFacts.content_stages_resend_original getenv new_request
              gpt_up article) as (_ & _ & _ & H).
  exact (H "first" "second" "third" ltac:(reflexivity) ltac:(reflexivity)
           ltac:(reflexivity)).
Defined.

(** C4 at work: the cleaning service is down, the original article is
    rendered and returned with status 200. *)
Lemma unreachable_service_still_renders :
  Transformer.error
    (Transformer.Handler getenv new_request gpt_down unmarshal "{}") = None
  /\ StatusCode
       (Transformer.response
          (Transformer.Handler getenv new_request gpt_down unmarshal "{}"))
     = StatusOK
  /\ Body
       (Transformer.response
          (Transformer.Handler getenv new_request gpt_down unmarshal "{}"))
     = Transformer.ConvertToMarkdown article.
Proof.
  destruct (TransformerFacts.Handler_survives_cleaning_failures getenv new_request
              gpt_down unmarshal "{}") as [Herr H].
  destruct (H article ltac:(reflexivity)) as (Hst & _ & _ & _ & _ & Hboth).
  split; [exact Herr | split; [exact Hst|]].
  apply Hboth.
  - exists (Transformer.stage1 getenv article), "failed to send HTTP request: connection refused".
    split; [apply list_elem_of_here | reflexivity].
  - exists (Transformer.dateStage article), "failed to send HTTP request: connection refused".
    split; [apply list_elem_of_here | reflexivity].
Defined.

(** C6 at work: nothing is listed, nothing is sent. *)
Lemma idle_run_is_noop :
  Publisher.calls idle_run = []
  /\ Publisher.github idle_run = "old-head"
  /\ exists body,
       Publisher.outcome idle_run = Returns (mkResponse StatusOK body [], None).
Proof.
  exact (PublisherFacts.Handler_empty_listing_is_noop getenv load_config today
           no_files get_object (hosting all_up) range_map "old-head"
           getenv_configured ltac:(reflexivity) ltac:(vm_compute; reflexivity)).
Defined.

(** C7 at work: two pages, both keys returned. *)
Lemma both_pages_listed :
  Publisher.ListFiles two_pages "bucket" "news/2025-01-04/" = Ok [key_a; key_b].
Proof.
  destruct (PublisherFacts.ListFiles_exhausts_pages two_pages "bucket"
              "news/2025-01-04/") as (H & _ & _).
  apply H. repeat constructor.
Defined.

(** C8 as stated fails: the index stays in the repository path. *)
Lemma repository_path_keeps_index :
  key_a = S3Upload.filename today today ("politics" +:+ "_" +:+ Itoa 0)
  /\ Publisher.githubFilePath today "news/2025-01-04/" key_a
     = "2025-01-04/2025-01-04_politics_0.md"
  /\ Publisher.githubFilePath today "news/2025-01-04/" key_a
     <> "2025-01-04/2025-01-04_politics.md".
Proof.
  split; [vm_compute; reflexivity|]. split; [vm_compute; reflexivity|].
  vm_compute. discriminate.
Qed.

(** C8 as amended, at work. *)
Lemma first_politics_article_path :
  Publisher.githubFilePath today ("news/" +:+ today +:+ "/")
    (S3Upload.filename today today ("politics" +:+ "_" +:+ Itoa 0))
  = today +:+ "/" +:+ today +:+ "_" +:+ "politics" +:+ "_" +:+ Itoa 0 +:+ ".md".
Proof.
  exact (PublisherFacts.githubFilePath_keeps_file_name today "politics" 0
           ltac:(reflexivity) ltac:(reflexivity)).
Defined.

(** C9 at work: category ["a"] fails, category ["b"] is processed all the
    same, and its second article, whose conversion fails, is not uploaded. *)
Lemma category_b_unaffected :
  Orchestrator.events_of "b"
    (Orchestrator.RunAll getenv query_unescape new_request do_ marshal
       unmarshal_articles utf8_valid replace_all_ansi one_by_one categories)
  ≡ₚ Orchestrator.processArticles getenv query_unescape new_request do_ marshal
       unmarshal_articles utf8_valid replace_all_ansi one_by_one
       "https://example.org/b" "b".
Proof.
  destruct (OrchestratorFacts.RunAll_isolates_failures getenv query_unescape
              new_request do_ marshal unmarshal_articles utf8_valid
              replace_all_ansi one_by_one categories "b" "https://example.org/b"
              ltac:(intros logs; reflexivity) ltac:(vm_compute; reflexivity))
    as (H & _).
  exact H.
Defined.

End Runs.

(** ** More on the extraction service *)

Module CrawlingMore.
Import Crawling GoFacts.

Lemma length_append (a b : string) :
  String.length (a +:+ b) = (String.length a + String.length b)%nat.
Proof.
  induction a as [|c a IH]; [done|]. rewrite append_cons. simpl. by rewrite IH.
Qed.

Lemma drop_bytes_split (n : nat) : forall s : string,
  (n <= String.length s)%nat ->
  exists pre, s = pre +:+ drop_bytes n s /\ String.length pre = n.
Proof.
  induction n as [|n IH]; intros s Hn.
  - by exists "".
  - destruct s as [|c s]; simpl in Hn; [lia|].
    destruct (IH s ltac:(lia)) as (pre & Hs & Hlen).
    exists (String c pre). simpl. rewrite append_cons. split; congruence.
Qed.

(** [contains], despite its name, tests for a non-empty suffix: it holds
    exactly when [substr] is not empty and [s] ends with it. *)
Theorem contains_is_nonempty_suffix (s substr : string) :
  contains s substr = true <-> substr <> "" /\ exists pre, s = pre +:+ substr.
Proof.
  unfold contains. rewrite !andb_true_iff, Nat.leb_le, Nat.ltb_lt, Z.leb_le.
  split.
  - intros [[Hle Hpos] [_ Heq]]. apply String.eqb_eq in Heq. split.
    + intros ->. simpl in Hpos. lia.
    + destruct (drop_bytes_split (String.length s - String.length substr) s
                  ltac:(lia)) as (pre & Hs & _).
      exists pre. by rewrite Heq in Hs.
  - intros [Hne [pre ->]]. rewrite length_append.
    split; [split; [lia | destruct substr; [done | simpl; lia]]|].
    split; [lia|]. apply String.eqb_eq.
    replace (String.length pre + String.length substr - String.length substr)%nat
      with (String.length pre) by lia.
    apply drop_bytes_app.
Qed.

Section Headlines.

Variables BASE_URL BASE_URL_DETAIL : string.

Local Abbreviation isValid := (isValidNewsLink BASE_URL_DETAIL).
Local Abbreviation loop := (EachWithBreak BASE_URL BASE_URL_DETAIL).
Local Abbreviation loop_inv := (loop_inv BASE_URL_DETAIL).
Local Abbreviation absolute := (absolute BASE_URL).
Local Abbreviation ScrapeHeadlines := (ScrapeHeadlines BASE_URL BASE_URL_DETAIL).

Lemma absolute_None href : absolute href = None <-> href = "".
Proof. destruct href; simpl; split; congruence. Qed.

(** Without an empty [href] the loop runs to its end. *)
Lemma loop_returns sel : forall links seen,
  Forall (fun s => s <> Some "") sel ->
  exists links', loop sel links seen = Returns links'.
Proof.
  induction sel as [|s rest IH]; intros links seen Hall; [by eexists|].
  apply Forall_cons in Hall as [Hs Hall].
  rewrite CrawlingFacts.EachWithBreak_cons.
  destruct (5 <=? length links)%nat; [by eexists|].
  destruct s as [href|]; [|eauto].
  destruct (Crawling.absolute BASE_URL href) as [link|] eqn:Habs.
  - destruct (isValid link && negb (seen_get seen link)); eauto.
  - apply absolute_None in Habs. congruence.
Qed.

(** The links come out in the order of the anchors. *)
Lemma loop_in_order sel : forall links seen links',
  loop sel links seen = Returns links' ->
  exists more, links' = links ++ more
               /\ more `sublist_of` omap (fun s => s ≫= absolute) sel.
Proof.
  induction sel as [|s rest IH]; intros links seen links' H.
  - simpl in H. simplify_eq. exists []. by rewrite app_nil_r.
  - rewrite CrawlingFacts.EachWithBreak_cons in H.
    destruct (5 <=? length links)%nat.
    { simplify_eq. exists []. rewrite app_nil_r. split; [done|].
      apply sublist_nil_l. }
    destruct s as [href|]; [|simpl; eauto].
    destruct (Crawling.absolute BASE_URL href) as [link|] eqn:Habs; [|done].
    simpl. rewrite Habs.
    destruct (isValid link && negb (seen_get seen link)).
    + apply IH in H as (more & -> & Hsub). exists (link :: more).
      rewrite <- app_assoc. split; [done | by apply sublist_skip].
    + apply IH in H as (more & -> & Hsub). exists more.
      split; [done | by apply sublist_cons].
Qed.

(** Below the cap nothing valid is left out. *)
Lemma loop_misses_nothing sel : forall links seen links',
  loop_inv links seen ->
  loop sel links seen = Returns links' ->
  (length links' < 5)%nat ->
  (forall l, l ∈ links -> l ∈ links')
  /\ forall href link, Some href ∈ sel -> absolute href = Some link ->
                       isValid link = true -> link ∈ links'.
Proof.
  induction sel as [|s rest IH]; intros links seen links' Hinv H Hlen.
  - simpl in H. simplify_eq. split; [done|]. by intros ? ? ?%elem_of_nil.
  - pose proof (CrawlingFacts.loop_extends _ _ _ _ _ _ H) as [more Hmore].
    assert (Hgrow : forall l, l ∈ links -> l ∈ links').
    { intros l Hl. rewrite Hmore. apply elem_of_app. by left. }
    split; [exact Hgrow|].
    rewrite CrawlingFacts.EachWithBreak_cons in H.
    assert (Hroom : (5 <=? length links)%nat = false).
    { apply Nat.leb_gt. rewrite Hmore, length_app in Hlen. lia. }
    rewrite Hroom in H.
    intros href link Hin Habs Hvalid.
    apply elem_of_cons in Hin as [Heq|Hin].
    + subst s. rewrite Habs, Hvalid in H. simpl in H.
      destruct (seen_get seen link) eqn:Hseen; simpl in H.
      * apply Hgrow. by apply Hinv.
      * apply CrawlingFacts.loop_extends in H as [more' ->].
        rewrite <- app_assoc. apply elem_of_app. right. apply list_elem_of_here.
    + destruct s as [href0|]; [|by eapply (IH _ _ _ Hinv H Hlen)].
      destruct (Crawling.absolute BASE_URL href0) as [link0|]; [|done].
      destruct (isValid link0 && negb (seen_get seen link0)) eqn:Hadd.
      * apply andb_true_iff in Hadd as [Hv Hs]. apply negb_true_iff in Hs.
        pose proof (CrawlingFacts.loop_inv_step _ _ _ _ Hinv Hv Hs) as Hinv'.
        by eapply (IH _ _ _ Hinv' H Hlen).
      * by eapply (IH _ _ _ Hinv H Hlen).
Qed.

(** [ScrapeHeadlines] returns on every selection without an empty [href].
    The links it returns stand in the order of their anchors; and when
    fewer than five are returned, every valid link of the page is among
    them: a valid link is left out only by the cap of five. *)
Theorem ScrapeHeadlines_in_order_and_complete (doc : Selection) :
  (Forall (fun s => s <> Some "") doc -> exists r, ScrapeHeadlines doc = Returns r)
  /\ forall links, ScrapeHeadlines doc = Returns (Ok links) ->
       links `sublist_of` omap (fun s => s ≫= absolute) doc
       /\ ((length links < 5)%nat ->
           forall href link, Some href ∈ doc -> absolute href = Some link ->
                             isValid link = true -> link ∈ links).
Proof.
  unfold Crawling.ScrapeHeadlines. split.
  - intros Hall. destruct (loop_returns doc [] ∅ Hall) as [links ->].
    destruct (length links =? 0)%nat; eauto.
  - intros links. destruct (loop doc [] ∅) as [links'| |] eqn:Hloop; [|done..].
    destruct (length links' =? 0)%nat; [done|]. intros [= <-]. split.
    + by destruct (loop_in_order _ _ _ _ Hloop) as (more & -> & ?).
    + intros Hlen.
      apply (loop_misses_nothing _ _ _ _ (CrawlingFacts.loop_inv_init _) Hloop Hlen).
Qed.

End Headlines.

Section Service.

Variables BASE_URL BASE_URL_DETAIL : string.
Variable NewRequest : string -> string -> Result unit.
Variable Do : Fetch -> string -> FetchResult.
Variable TrimSpace : string -> string.
Variable Marshal : list NewsArticle -> Result string.
Variable arrival : list NewsArticle -> list NewsArticle.

Local Abbreviation FetchHTML := (FetchHTML NewRequest Do).
Local Abbreviation ScrapeArticle := (ScrapeArticle NewRequest Do TrimSpace).
Local Abbreviation scrape_links := (scrape_links NewRequest Do TrimSpace).
Local Abbreviation Handler :=
  (Handler BASE_URL BASE_URL_DETAIL NewRequest Do TrimSpace Marshal arrival).

Lemma scrape_links_from_links links : forall scraped,
  scrape_links links = Returns scraped ->
  (length scraped <= length links)%nat
  /\ forall a, a ∈ scraped ->
       exists link, link ∈ links /\ ScrapeArticle link = Returns (Ok a).
Proof.
  induction links as [|link rest IH]; intros scraped H; simpl in H.
  - simplify_eq. split; [done|]. by intros ? ?%elem_of_nil.
  - destruct (ScrapeArticle link) as [r| |] eqn:Hone; [|done..].
    destruct (Crawling.scrape_links NewRequest Do TrimSpace rest)
      as [articles| |] eqn:Hrest; [|done..].
    destruct (IH _ eq_refl) as [Hlen Hfrom]. simplify_eq.
    destruct r as [article|e]; simpl.
    + split; [lia|]. intros a [->|Ha]%elem_of_cons.
      * exists link. split; [apply list_elem_of_here | done].
      * destruct (Hfrom _ Ha) as (l & ? & ?). exists l.
        split; [by apply list_elem_of_further | done].
    + split; [lia|]. intros a Ha. destruct (Hfrom _ Ha) as (l & ? & ?).
      exists l. split; [by apply list_elem_of_further | done].
Qed.

Hypothesis arrival_permutes : forall articles, arrival articles ≡ₚ articles.

(** When the handler of the extraction service returns, its Go error is
    [nil] and the status is 400 exactly for a missing [url].  A 200 answer
    carries the JSON of between one and five articles, each scraped from a
    headline link of the section page that contains [BASE_URL_DETAIL]. *)
Theorem Handler_answers_with_scraped_articles (url : string) resp err :
  Handler url = Returns (resp, err) ->
  err = None
  /\ (StatusCode resp = StatusBadRequest <-> url = "")
  /\ (StatusCode resp = StatusOK ->
      exists sectionDoc links scraped,
        FetchHTML SectionPage url = Returns (Ok sectionDoc)
        /\ Crawling.ScrapeHeadlines BASE_URL BASE_URL_DETAIL
             (headline_anchors sectionDoc) = Returns (Ok links)
        /\ scrape_links links = Returns scraped
        /\ Marshal (arrival scraped) = Ok (Body resp)
        /\ (1 <= length (arrival scraped) <= 5)%nat
        /\ forall a, a ∈ arrival scraped ->
             exists link, link ∈ links
                          /\ Contains link BASE_URL_DETAIL = true
                          /\ ScrapeArticle link = Returns (Ok a)).
Proof.
  unfold Crawling.Handler.
  destruct (String.eqb_spec url "") as [->|Hurl].
  { intros [= <- <-]. split; [done|]. split; [done|]. discriminate. }
  destruct (FetchHTML SectionPage url) as [[sectionDoc|e]| |] eqn:Hfetch;
    [| intros [= <- <-]; split; [done|]; split; [split; [discriminate|done]|discriminate]
     | done..].
  destruct (Crawling.ScrapeHeadlines _ _ _) as [[links|e]| |] eqn:Hhead;
    [| intros [= <- <-]; split; [done|]; split; [split; [discriminate|done]|discriminate]
     | done..].
  destruct (scrape_links links) as [scraped| |] eqn:Hscrape; [|done..].
  destruct (length (arrival scraped) =? 0)%nat eqn:Hzero;
    [intros [= <- <-]; split; [done|]; split; [split; [discriminate|done]|discriminate]|].
  destruct (Marshal (arrival scraped)) as [body|e] eqn:Hjson;
    [| intros [= <- <-]; split; [done|]; split; [split; [discriminate|done]|discriminate]].
  intros [= <- <-]. split; [done|]. split; [split; [discriminate|done]|].
  intros _. exists sectionDoc, links, scraped.
  destruct (scrape_links_from_links _ _ Hscrape) as [Hlen Hfrom].
  assert (Hlinks : (length links <= 5)%nat
                   /\ Forall (fun l => isValidNewsLink BASE_URL_DETAIL l = true) links).
  { unfold Crawling.ScrapeHeadlines in Hhead.
    destruct (EachWithBreak _ _ _ _ _) as [links'| |] eqn:Hloop; [|done..].
    destruct (CrawlingFacts.loop_keeps_inv _ _ _ _ _ _
                (CrawlingFacts.loop_inv_init _) ltac:(simpl; lia) Hloop)
      as (_ & Hvalid & Hcap).
    destruct (length links' =? 0)%nat; simplify_eq. done. }
  destruct Hlinks as [Hcap Hvalid].
  repeat split; try done.
  - apply Nat.eqb_neq in Hzero. lia.
  - rewrite arrival_permutes. lia.
  - intros a Ha. rewrite arrival_permutes in Ha.
    destruct (Hfrom _ Ha) as (link & Hin & Hok). exists link.
    split; [done | split; [|done]].
    rewrite Forall_forall in Hvalid. specialize (Hvalid _ Hin).
    unfold isValidNewsLink in Hvalid.
    apply andb_true_iff in Hvalid as [Hv _]. by apply andb_true_iff in Hv as [_ ?].
Qed.

End Service.

End CrawlingMore.

(** ** The cleaning service *)

Module GptApiFacts.
Import GptApi.

Section Service.

Variable Getenv : string -> string.
Variable Unmarshal : string -> Result GPTRequest.
Variable CreateChatCompletion :
  string -> ChatCompletionRequest -> Result (list ChatCompletionMessage).

Local Abbreviation ChatGPT := (ChatGPT CreateChatCompletion).
Local Abbreviation Handler := (Handler Getenv Unmarshal CreateChatCompletion).

(** The one request [ChatGPT] sends for a [GPTRequest]. *)
Local Abbreviation completion req :=
  (CreateChatCompletion (Getenv "API_KEY")
     (mkChatRequest "gpt-3.5-turbo"
        [mkMessage "user"
           (Prompt req +:+ " :" +:+ String "010" (String "010" "")
            +:+ Content req)])).

(** The handler of the cleaning service never answers 500 and never returns
    a Go error: [ChatGPT] has no error to return, since a failure of the
    completion endpoint ends the process and an answer without choices
    panics.  It answers 400 exactly when the body does not parse, and 200
    with the content of the first choice otherwise. *)
Theorem Handler_never_answers_500 (requestBody : string) :
  (forall resp err, Handler requestBody = Returns (resp, err) ->
     err = None
     /\ StatusCode resp <> StatusInternalServerError
     /\ (StatusCode resp = StatusBadRequest <-> is_ok (Unmarshal requestBody) = false)
     /\ (StatusCode resp = StatusOK ->
         exists req choice others,
           Unmarshal requestBody = Ok req
           /\ completion req = Ok (choice :: others)
           /\ Body resp = MessageContent choice))
  /\ (forall req e, Unmarshal requestBody = Ok req -> completion req = Err e ->
        Handler requestBody = Exits e)
  /\ (forall req, Unmarshal requestBody = Ok req -> completion req = Ok [] ->
        exists m, Handler requestBody = Panics m).
Proof.
  unfold GptApi.Handler, GptApi.ChatGPT. simpl.
  destruct (Unmarshal requestBody) as [req|e] eqn:Hparse.
  - destruct (completion req) as [[|choice others]|e] eqn:Hcall.
    + split; [done|].
      split; [intros ? ? [= <-] ?; congruence | intros ? [= <-] _; eauto].
    + split; [|split; [intros ? ? [= <-] ? | intros ? [= <-] ?]; congruence].
      intros resp err [= <- <-]. simpl.
      split; [done | split; [discriminate | split; [split; discriminate|]]].
      intros _. by exists req, choice, others.
    + split; [done|]. split; [|intros ? [= <-] ?; congruence].
      intros ? ? [= <-] ?. congruence.
  - split; [|split; by intros].
    intros resp err [= <- <-]. simpl.
    split; [done | split; [discriminate | split; [done | discriminate]]].
Qed.

End Service.

End GptApiFacts.

(** ** The store uploader *)

Module S3UploadFacts.
Import S3Upload.

Section Service.

Variable Getenv : string -> string.
Variable DecodeString : string -> Result string.
Variable LoadDefaultConfig : string -> Result unit.
Variable PutObject : PutObjectInput -> Result unit.
Variables now1 now2 : string.

Local Abbreviation LambdaHandler :=
  (LambdaHandler Getenv DecodeString LoadDefaultConfig PutObject now1 now2).

(** The body of a request as the handler stores it. *)
Local Abbreviation decoded request :=
  (if req_IsBase64Encoded request then DecodeString (req_Body request)
   else Ok (req_Body request)).

(** The store uploader asks S3 to store at most one object per invocation.
    It stores nothing when it ends the process or answers 400 (no header,
    a body that does not decode, an empty body).  When it answers 200 or
    500 it sent exactly one [PutObject]: the decoded, non-empty body as
    [text/markdown] under the key made from the two dates and the header,
    and the answer is 200 exactly when S3 accepted it.  Its Go error is
    always [nil]. *)
Theorem LambdaHandler_stores_at_most_once (request : Request) :
  (length (puts (LambdaHandler request)) <= 1)%nat
  /\ (forall m, outcome (LambdaHandler request) = Exits m ->
        puts (LambdaHandler request) = [])
  /\ (forall resp err, outcome (LambdaHandler request) = Returns (resp, err) ->
        err = None
        /\ (StatusCode resp = 400%Z -> puts (LambdaHandler request) = [])
        /\ (StatusCode resp <> 400%Z ->
            exists category content,
              req_Headers request !! "x-category-sniij" = Some category
              /\ decoded request = Ok content
              /\ content <> ""
              /\ puts (LambdaHandler request)
                 = [mkPutObjectInput (Getenv "S3_BUCKET_NAME")
                      (filename now1 now2 category) content "text/markdown"]
              /\ (StatusCode resp = 200%Z <->
                  is_ok (PutObject
                           (mkPutObjectInput (Getenv "S3_BUCKET_NAME")
                              (filename now1 now2 category) content
                              "text/markdown")) = true))).
Proof.
  unfold S3Upload.LambdaHandler, Upload.
  destruct (req_Headers request !! "x-category-sniij") as [category|] eqn:Hhead.
  2:{ simpl. split; [lia|]. split; [done|]. by intros. }
  destruct (decoded request) as [content|e] eqn:Hbody.
  2:{ simpl. split; [lia|]. split; [done|].
      intros ? ? [= <- <-]. simpl. split; [done|]. split; [done|]. by intros []. }
  destruct (String.length content =? 0)%nat eqn:Hlen.
  { simpl. split; [lia|]. split; [done|].
    intros ? ? [= <- <-]. simpl. split; [done|]. split; [done|]. by intros []. }
  destruct (LoadDefaultConfig "ap-northeast-2") as [[]|e].
  2:{ simpl. split; [lia|]. split; [done|]. by intros. }
  assert (Hne : content <> "").
  { intros ->. by simpl in Hlen. }
  destruct (PutObject _) as [[]|e] eqn:Hput; simpl;
    (split; [lia|]); (split; [done|]);
    intros ? ? [= <- <-]; simpl; (split; [done|]); (split; [done|]);
    intros _; exists category, content; rewrite Hput; simpl;
    repeat split; try done; discriminate.
Qed.

End Service.

End S3UploadFacts.

(** ** More on the publisher *)

Module PublisherMore.
Import Publisher GoFacts.

Lemma append_inj_l (a b c : string) : a +:+ b = a +:+ c -> b = c.
Proof.
  induction a as [|x a IH]; [done|]. rewrite !append_cons. intros [= H]. auto.
Qed.

Lemma append_inj_r (c : string) : forall a b : string, a +:+ c = b +:+ c -> a = b.
Proof.
  assert (Hlen : forall a : string,
            String.length (a +:+ c) = (String.length a + String.length c)%nat).
  { induction a as [|x a IH]; [done|]. rewrite append_cons. simpl. by rewrite IH. }
  induction a as [|x a IH]; intros [|y b] H.
  - done.
  - apply (f_equal String.length) in H. rewrite append_nil, Hlen in H.
    simpl in H. lia.
  - apply (f_equal String.length) in H. rewrite append_nil, Hlen in H.
    simpl in H. lia.
  - rewrite !append_cons in H. injection H as -> H. f_equal. auto.
Qed.

(** A map built by successive inserts. *)
Lemma fold_insert_kept (l : list (string * string)) :
  forall (m : gmap string string) p b,
  m !! p = Some b -> p ∉ l.*1 -> fold_left insert_pair l m !! p = Some b.
Proof.
  induction l as [|[k v] l IH]; intros m p b Hm Hp; [done|]. simpl.
  simpl in Hp. apply not_elem_of_cons in Hp as [Hne Hp].
  apply IH; [|done]. unfold insert_pair. simpl. by rewrite lookup_insert_ne.
Qed.

Lemma fold_insert_from (l : list (string * string)) :
  forall (m : gmap string string) p b,
  fold_left insert_pair l m !! p = Some b -> m !! p = Some b \/ (p, b) ∈ l.
Proof.
  induction l as [|[k v] l IH]; intros m p b H; [by left|]. simpl in H.
  apply IH in H as [H|H].
  - unfold insert_pair in H. simpl in H.
    destruct (decide (k = p)) as [->|Hne].
    + rewrite lookup_insert_eq in H. simplify_eq. right. apply list_elem_of_here.
    + rewrite lookup_insert_ne in H by done. by left.
  - right. by apply list_elem_of_further.
Qed.

Lemma fold_insert_is_Some (l : list (string * string)) :
  forall (m : gmap string string) p,
  p ∈ l.*1 -> is_Some (fold_left insert_pair l m !! p).
Proof.
  induction l as [|[k v] l IH]; intros m p Hp; [by apply elem_of_nil in Hp|].
  simpl. destruct (decide (p ∈ l.*1)) as [Hin|Hout]; [by apply IH|].
  simpl in Hp. apply elem_of_cons in Hp as [->|Hp]; [|done].
  exists v. apply fold_insert_kept; [apply lookup_insert_eq | done].
Qed.

Lemma filter_nil_iff {A} (P : A -> Prop) `{forall x, Decision (P x)} (l : list A) :
  filter P l = [] <-> Forall (fun x => ~ P x) l.
Proof.
  induction l as [|x l IH]; [by split; [constructor|]|].
  rewrite filter_cons, Forall_cons. destruct (decide (P x)).
  - split; [done | tauto].
  - rewrite IH. tauto.
Qed.

(** The stored name of an object is a plain path element. *)
Lemma object_name_plain (date header : string) :
  is_date date = true -> slash_free header = true ->
  plain_elem (date +:+ "_" +:+ header +:+ ".md") = true.
Proof.
  intros Hd Hh. pose proof (is_date_plain _ Hd) as Hp.
  assert (Hs : slash_free date = true).
  { unfold plain_elem in Hp. by apply andb_true_iff in Hp as [_ ?]. }
  unfold plain_elem. apply andb_true_iff. split.
  - unfold is_date in Hd.
    do 3 (destruct date as [|? date]; [done|]).
    rewrite !append_cons. simpl.
    by repeat (destruct (Ascii.eqb _ _); simpl).
  - rewrite !slash_free_app, Hs, Hh. reflexivity.
Qed.

(** The store uploader and the publisher agree on the day [today]: an
    object stored under a header without a slash lies under the prefix the
    publisher lists, is published as [{today}/{today}_{header}.md], and two
    such objects are published under the same path only when their headers
    are the same. *)
Theorem stored_objects_get_paths_of_their_own (today h1 h2 : string) :
  is_date today = true -> slash_free h1 = true -> slash_free h2 = true ->
  let prefix := "news/" +:+ today +:+ "/" in
  HasPrefix (S3Upload.filename today today h1) prefix = true
  /\ githubFilePath today prefix (S3Upload.filename today today h1)
     = today +:+ "/" +:+ today +:+ "_" +:+ h1 +:+ ".md"
  /\ (githubFilePath today prefix (S3Upload.filename today today h1)
      = githubFilePath today prefix (S3Upload.filename today today h2) ->
      h1 = h2).
Proof.
  intros Hd H1 H2. cbv zeta.
  assert (Hname : forall h, S3Upload.filename today today h
                            = ("news/" +:+ today +:+ "/")
                              +:+ (today +:+ "_" +:+ h +:+ ".md")).
  { intros h. unfold S3Upload.filename. by rewrite !append_assoc. }
  assert (Hpath : forall h, slash_free h = true ->
            githubFilePath today ("news/" +:+ today +:+ "/")
              (S3Upload.filename today today h)
            = today +:+ "/" +:+ today +:+ "_" +:+ h +:+ ".md").
  { intros h Hh. unfold githubFilePath. rewrite Hname, TrimPrefix_app.
    apply Join_plain; [by apply is_date_plain | by apply object_name_plain]. }
  split; [rewrite Hname; apply HasPrefix_app|].
  split; [by apply Hpath|].
  rewrite !Hpath by done. intros H.
  do 4 apply append_inj_l in H. by apply append_inj_r in H.
Qed.

Section Service.

Context {State : Type}.
Variable Getenv : string -> string.
Variable LoadDefaultConfig : string -> Result unit.
Variable today : string.
Variable ListObjectsV2 : string -> string -> list Page.
Variable GetObject : string -> string -> Result (Result string).
Variable git : GitService State.
Variable rangeMap : gmap string string -> list (string * string).

Local Abbreviation ListFiles := (ListFiles ListObjectsV2).
Local Abbreviation DownloadFile := (DownloadFile GetObject).
Local Abbreviation UploadFiles := (UploadFiles git rangeMap).
Local Abbreviation githubFilePath := (githubFilePath today).
Local Abbreviation collect := (collect today GetObject).
Local Abbreviation downloaded := (downloaded GetObject).
Local Abbreviation batch := (batch today GetObject).
Local Abbreviation configured := (configured Getenv).
Local Abbreviation Handler :=
  (Handler Getenv LoadDefaultConfig today ListObjectsV2 GetObject git rangeMap).

Lemma batch_app bucket prefix l1 l2 :
  batch bucket prefix (l1 ++ l2) = batch bucket prefix l1 ++ batch bucket prefix l2.
Proof.
  unfold Publisher.batch, Publisher.downloaded. by rewrite filter_app, map_app.
Qed.

Lemma batch_elem bucket prefix files p b :
  (p, b) ∈ batch bucket prefix files ->
  exists key, key ∈ files /\ DownloadFile bucket key = Ok b
              /\ githubFilePath prefix key = p.
Proof.
  unfold Publisher.batch, Publisher.downloaded.
  intros (key & [= -> ->] & [Hok Hin]%list_elem_of_filter)%list_elem_of_fmap.
  exists key. unfold entry_of. simpl.
  destruct (DownloadFile bucket key); [done | discriminate].
Qed.

(** What the map of the batch holds.  An entry of it holds the bytes
    downloaded for a listed key with that repository path; and for a key
    that downloads, its path holds its bytes unless a key listed after it
    downloads too and has the same path: the last one listed wins. *)
Theorem collect_last_listed_wins (bucket prefix : string) (files : list string) :
  (forall p b, collect bucket prefix files !! p = Some b ->
     exists key, key ∈ files /\ DownloadFile bucket key = Ok b
                 /\ githubFilePath prefix key = p)
  /\ (forall before key after bytes,
        files = before ++ key :: after ->
        DownloadFile bucket key = Ok bytes ->
        (forall k, k ∈ after -> is_ok (DownloadFile bucket k) = true ->
                   githubFilePath prefix k <> githubFilePath prefix key) ->
        collect bucket prefix files !! githubFilePath prefix key = Some bytes).
Proof.
  rewrite PublisherFacts.collect_as_batch. split.
  - intros p b [H|H]%fold_insert_from; [by rewrite lookup_empty in H|].
    by apply batch_elem.
  - intros before key after bytes -> Hkey Hafter.
    rewrite batch_app, fold_left_app.
    change (key :: after) with ([key] ++ after).
    rewrite batch_app, fold_left_app.
    apply fold_insert_kept.
    + unfold Publisher.batch at 1, Publisher.downloaded.
      rewrite filter_cons, decide_True by (by rewrite Hkey). simpl.
      unfold insert_pair, entry_of. simpl. rewrite Hkey. apply lookup_insert_eq.
    + rewrite PublisherFacts.batch_paths.
      intros (k & Hp & [Hok Hin]%list_elem_of_filter)%list_elem_of_fmap.
      by apply (Hafter k).
Qed.

(** The handler's remote calls when there is something to upload. *)
Lemma upload_makes_calls Owner Repo files msg s :
  snd (snd (UploadFiles Owner Repo files msg (s, []))) <> [].
Proof.
  rewrite PublisherFacts.UploadFiles_cases. cbv zeta.
  destruct (GetRef git _ _ _ s) as [[ref|e1] s1]; [|done].
  destruct (GetTree git _ _ _ _ s1) as [[baseTree|e2] s2]; [|done].
  destruct (CreateTree git _ _ _ _ s2) as [[newTree|e3] s3]; [|done].
  destruct (CreateCommit git _ _ _ s3) as [[commit|e4] s4]; [|done].
  by destruct (UpdateRef git _ _ _ _ s4) as [[ref'|e5] s5].
Qed.

Lemma collect_empty_iff bucket prefix files :
  size (collect bucket prefix files) = 0%nat
  <-> Forall (fun key => is_ok (DownloadFile bucket key) = false) files.
Proof.
  rewrite map_size_empty_iff.
  assert (Forall (fun key => is_ok (DownloadFile bucket key) = false) files
          <-> downloaded bucket files = []) as ->.
  { unfold Publisher.downloaded. rewrite filter_nil_iff.
    apply Forall_proper; [|done]. intros key.
    destruct (is_ok (DownloadFile bucket key)); split; congruence. }
  rewrite PublisherFacts.collect_as_batch.
  destruct (downloaded bucket files) as [|key rest] eqn:Hd.
  { unfold Publisher.batch. by rewrite Hd. }
  split; [|done]. intros Hempty. exfalso.
  assert (Hin : is_Some (fold_left insert_pair (batch bucket prefix files) ∅
                         !! githubFilePath prefix key)).
  { apply fold_insert_is_Some. rewrite PublisherFacts.batch_paths, Hd.
    apply list_elem_of_here. }
  rewrite Hempty, lookup_empty in Hin. by destruct Hin.
Qed.

(** The publisher talks to the hosting service exactly when at least one
    listed key could be downloaded.  When every download fails it makes no
    remote call, leaves the service as it was, and still answers 200. *)
Theorem Handler_uploads_iff_some_download (s : State) (files : list string) :
  configured ->
  LoadDefaultConfig (Getenv "AWS_REGION") = Ok tt ->
  ListFiles (Getenv "S3_BUCKET_NAME") ("news/" +:+ today +:+ "/") = Ok files ->
  (calls (Handler s) = []
   <-> Forall (fun key => is_ok (DownloadFile (Getenv "S3_BUCKET_NAME") key) = false)
              files)
  /\ (calls (Handler s) = [] ->
      github (Handler s) = s
      /\ exists body,
           outcome (Handler s) = Returns (mkResponse StatusOK body [], None)).
Proof.
  intros (H1 & H2 & H3 & H4 & H5) Hcfg Hlist. unfold Publisher.Handler.
  apply String.eqb_neq in H1, H2, H3, H4, H5.
  rewrite H1, H2, H3, H4, H5, Hcfg, Hlist. simpl.
  rewrite <- (collect_empty_iff _ ("news/" +:+ today +:+ "/")).
  destruct (0 <? size _)%nat eqn:Hsize.
  - apply Nat.ltb_lt in Hsize.
    pose proof (upload_makes_calls (Getenv "OWNER_GITHUB") (Getenv "REPO_GITHUB")
                  (collect (Getenv "S3_BUCKET_NAME") ("news/" +:+ today +:+ "/") files)
                  ("Add: 오늘의 기사 추가(" +:+ today +:+ ")") s) as Hcalls.
    destruct (UploadFiles _ _ _ _ _) as [[e|[]] [s' trace]]; simpl in *;
      (split; [split; [done | intros ?; lia] | intros ?; done]).
  - apply Nat.ltb_ge in Hsize. simpl.
    split; [split; [intros _; lia | done]|]. eauto.
Qed.


End Service.

Section Contents.

Context {State : Type}.
Variable api : ContentsService State.

Local Abbreviation UploadFile := (UploadFile api).

(** [UploadFile] first asks for the content at the path and then writes at
    most once.  A 404 makes it create the file, without a SHA, even when
    the check came with an error; any other status without an error makes
    it update the file with the SHA it read (the empty string when there is
    none).  A check that failed with another status is returned as an
    error and nothing is written.  Without a response the function panics:
    the status is read from a [nil] pointer. *)
Theorem UploadFile_checks_then_writes_once (Owner Repo path content : string)
    (s : State) :
  let answer := fst (GetContents api Owner Repo path s) in
  let s1 := snd (GetContents api Owner Repo path s) in
  let run := UploadFile Owner Repo path content s in
  let check := CallGetContents Owner Repo path in
  let message := "Add file: " +:+ path in
  (length (filter (fun c => is_write c = true) (snd run)) <= 1)%nat
  /\ (resp_StatusCode answer = None ->
      snd run = [check] /\ exists m, fst (fst run) = Panics m)
  /\ (resp_StatusCode answer = Some 404%Z ->
      snd run = [check;
                 CallCreateFile Owner Repo path (mkFileOptions message content None)])
  /\ (forall status, resp_StatusCode answer = Some status -> status <> 404%Z ->
      (contents_err answer = None ->
         snd run = [check;
                    CallUpdateFile Owner Repo path
                      (mkFileOptions message content
                         (Some (default "" (fileContent_SHA answer))))])
      /\ (forall e, contents_err answer = Some e ->
            run = (Returns (Some ("failed to check file existence: " +:+ e)),
                   s1, [check]))).
Proof.
  cbv zeta. unfold Publisher.UploadFile.
  destruct (GetContents api Owner Repo path s) as [[sha status err] s1]. simpl.
  destruct status as [status|].
  2:{ simpl. split; [lia|]. split; [eauto|]. split; [done|]. by intros. }
  destruct (status =? 404)%Z eqn:H404.
  - apply Z.eqb_eq in H404 as ->. rewrite andb_false_r.
    destruct (CreateFile api _ _ _ _ s1) as [r s2]. simpl.
    split; [done|]. split; [done|]. split; [done|].
    intros ? [= <-] ?. done.
  - apply Z.eqb_neq in H404. simpl. rewrite andb_true_r.
    destruct err as [e|]; simpl.
    + split; [lia|]. split; [done|]. split; [intros [= ?]; done|].
      intros ? [= <-] _. split; [done|]. by intros ? [= <-].
    + destruct (UpdateFile api _ _ _ _ s1) as [r s2]. simpl.
      split; [done|]. split; [done|]. split; [intros [= ?]; done|].
      intros ? [= <-] _. split; [done|]. done.
Qed.

End Contents.

End PublisherMore.

(** ** The pattern of [cleanANSI] at work *)

Module RegexpFacts.
Import Regexp GoFacts.

Lemma match_tail_shorter (s : string) : forall rest,
  match_tail s = Some rest -> (String.length rest < String.length s)%nat.
Proof.
  induction s as [|c s IH]; intros rest H; [done|]. simpl in H.
  destruct (is_param c).
  - apply IH in H. simpl. lia.
  - destruct (is_letter c); [|done]. simplify_eq. simpl. lia.
Qed.

Lemma match_ansi_shorter (s rest : string) :
  match_ansi s = Some rest -> (String.length rest < String.length s)%nat.
Proof.
  destruct s as [|e [|b s]]; [done..|]. simpl.
  destruct (_ && _); [|done]. intros H%match_tail_shorter. lia.
Qed.

(** More fuel than the length changes nothing. *)
Lemma replace_all_fuel (n : nat) : forall fuel1 fuel2 s,
  (String.length s <= n)%nat ->
  (String.length s <= fuel1)%nat -> (String.length s <= fuel2)%nat ->
  replace_all fuel1 s = replace_all fuel2 s.
Proof.
  induction n as [|n IH]; intros fuel1 fuel2 s Hn H1 H2.
  - destruct s; [|simpl in Hn; lia]. by destruct fuel1, fuel2.
  - destruct s as [|c s]; [by destruct fuel1, fuel2|].
    destruct fuel1 as [|fuel1]; [simpl in H1; lia|].
    destruct fuel2 as [|fuel2]; [simpl in H2; lia|].
    cbn [replace_all].
    destruct (match_ansi (String c s)) as [rest|] eqn:Hm.
    + apply match_ansi_shorter in Hm. simpl in *. apply IH; lia.
    + f_equal. simpl in *. apply IH; lia.
Qed.

(** [ReplaceAllANSI], one step at the head of the input. *)
Lemma ReplaceAllANSI_cons (c : ascii) (s : string) :
  ReplaceAllANSI (String c s) =
  match match_ansi (String c s) with
  | Some rest => ReplaceAllANSI rest
  | None => String c (ReplaceAllANSI s)
  end.
Proof.
  unfold ReplaceAllANSI. cbn [String.length replace_all].
  destruct (match_ansi (String c s)) as [rest|] eqn:Hm; [|done].
  apply match_ansi_shorter in Hm. simpl in Hm.
  apply (replace_all_fuel (String.length s)); lia.
Qed.

Lemma ReplaceAllANSI_esc_free (s : string) :
  esc_free s = true -> ReplaceAllANSI s = s.
Proof.
  induction s as [|c s IH]; [done|]. simpl.
  intros [Hc Hs]%andb_true_iff. apply negb_true_iff in Hc.
  rewrite ReplaceAllANSI_cons.
  assert (match_ansi (String c s) = None) as ->.
  { destruct s; simpl; [done|]. by rewrite Hc. }
  by rewrite IH.
Qed.

Lemma ReplaceAllANSI_length (n : nat) : forall s,
  (String.length s <= n)%nat ->
  (String.length (ReplaceAllANSI s) <= String.length s)%nat.
Proof.
  induction n as [|n IH]; intros s Hn.
  - destruct s; [done | simpl in Hn; lia].
  - destruct s as [|c s]; [done|]. rewrite ReplaceAllANSI_cons.
    destruct (match_ansi (String c s)) as [rest|] eqn:Hm.
    + apply match_ansi_shorter in Hm. simpl in *.
      specialize (IH rest ltac:(lia)). lia.
    + simpl in *. specialize (IH s ltac:(lia)). lia.
Qed.

Lemma match_tail_app_Some (x t : string) : forall rest,
  match_tail x = Some rest -> match_tail (x +:+ t) = Some (rest +:+ t).
Proof.
  induction x as [|c x IH]; intros rest H; [done|]. rewrite append_cons.
  simpl in *. destruct (is_param c); [auto|].
  destruct (is_letter c); [|done]. by simplify_eq.
Qed.

Lemma match_tail_app_None (x t : string) :
  match_tail x = None -> match_tail (x +:+ String ESC t) = None.
Proof.
  induction x as [|c x IH]; intros H; [done|]. rewrite append_cons.
  simpl in *. destruct (is_param c); [auto|]. by destruct (is_letter c).
Qed.

Lemma match_ansi_app_Some (x t rest : string) :
  match_ansi x = Some rest -> match_ansi (x +:+ t) = Some (rest +:+ t).
Proof.
  destruct x as [|e [|b x]]; [done..|]. rewrite !append_cons. simpl.
  destruct (_ && _); [|done]. apply match_tail_app_Some.
Qed.

Lemma match_ansi_app_None (c : ascii) (x t : string) :
  match_ansi (String c x) = None ->
  match_ansi (String c x +:+ String ESC t) = None.
Proof.
  destruct x as [|b x]; rewrite !append_cons.
  - intros _. rewrite append_nil. simpl.
    replace (Ascii.eqb ESC "["%char) with false by done. by rewrite andb_false_r.
  - simpl. destruct (_ && _); [|done]. apply match_tail_app_None.
Qed.

(** Text before an escape character is cleaned on its own. *)
Lemma ReplaceAllANSI_app_ESC (n : nat) (t : string) : forall a,
  (String.length a <= n)%nat ->
  ReplaceAllANSI (a +:+ String ESC t)
  = ReplaceAllANSI a +:+ ReplaceAllANSI (String ESC t).
Proof.
  induction n as [|n IH]; intros a Hn.
  - destruct a; [done | simpl in Hn; lia].
  - destruct a as [|c a]; [done|].
    rewrite (ReplaceAllANSI_cons c a).
    destruct (match_ansi (String c a)) as [rest|] eqn:Hm.
    + pose proof (match_ansi_app_Some _ (String ESC t) _ Hm) as Hm'.
      rewrite append_cons in Hm'. rewrite append_cons, ReplaceAllANSI_cons, Hm'.
      apply match_ansi_shorter in Hm. simpl in *. apply IH. lia.
    + pose proof (match_ansi_app_None _ _ t Hm) as Hm'.
      rewrite append_cons in Hm'. rewrite append_cons, ReplaceAllANSI_cons, Hm'.
      rewrite append_cons. f_equal. simpl in Hn. apply IH. lia.
Qed.

(** [cleanANSI] with the pattern of the source.  A text without the escape
    character is left as it is; the result is never longer than the input;
    and a complete code (escape, bracket, digits and semicolons, one
    letter) is removed wherever it stands, the text before it and the text
    after it being cleaned each on its own. *)
Theorem cleanANSI_removes_codes :
  (forall s, esc_free s = true -> Orchestrator.cleanANSI ReplaceAllANSI s = s)
  /\ (forall s, (String.length (Orchestrator.cleanANSI ReplaceAllANSI s)
                 <= String.length s)%nat)
  /\ (forall a code b, match_ansi code = Some "" ->
        Orchestrator.cleanANSI ReplaceAllANSI (a +:+ code +:+ b)
        = Orchestrator.cleanANSI ReplaceAllANSI a
          +:+ Orchestrator.cleanANSI ReplaceAllANSI b).
Proof.
  unfold Orchestrator.cleanANSI. split; [|split].
  - apply ReplaceAllANSI_esc_free.
  - intros s. by apply (ReplaceAllANSI_length (String.length s)).
  - intros a code b Hcode.
    assert (Hhead : exists rest, code = String ESC rest) .
    { destruct code as [|e [|x code]]; [done..|]. simpl in Hcode.
      destruct (Ascii.eqb_spec e ESC) as [->|]; [eauto | done]. }
    destruct Hhead as [rest ->]. rewrite append_cons.
    rewrite (ReplaceAllANSI_app_ESC (String.length a)) by lia. f_equal.
    rewrite ReplaceAllANSI_cons. rewrite <- append_cons.
    by rewrite (match_ansi_app_Some _ b _ Hcode).
Qed.

End RegexpFacts.

(** ** More on the fan-out *)

Module OrchestratorMore.
Import Orchestrator.

Lemma NoDup_short {A} (l : list A) : (length l <= 1)%nat -> NoDup l.
Proof.
  destruct l as [|x [|y l]]; simpl; intros H;
    [constructor | apply NoDup_singleton | lia].
Qed.

Section Service.

Variable Getenv : string -> string.
Variable QueryUnescape : string -> Result string.
Variable NewRequest : string -> string -> Result unit.
Variable Do : CallId -> HttpRequest -> HttpResult.
Variable Marshal : NewsArticle -> Result string.
Variable UnmarshalArticles : string -> Result (list NewsArticle).
Variable utf8_Valid : string -> bool.
Variable ReplaceAllANSI : string -> string.
Variable interleave : list (list Event) -> list Event.

Local Abbreviation Scrape :=
  (Scrape Getenv QueryUnescape NewRequest Do UnmarshalArticles).
Local Abbreviation ConvertToMarkdown :=
  (ConvertToMarkdown Getenv QueryUnescape NewRequest Do Marshal).
Local Abbreviation UploadToS3 :=
  (UploadToS3 Getenv QueryUnescape NewRequest utf8_Valid ReplaceAllANSI).
Local Abbreviation articleRoutine :=
  (articleRoutine Getenv QueryUnescape NewRequest Do Marshal utf8_Valid
     ReplaceAllANSI).
Local Abbreviation processArticles :=
  (processArticles Getenv QueryUnescape NewRequest Do Marshal UnmarshalArticles
     utf8_Valid ReplaceAllANSI interleave).
Local Abbreviation RunAll :=
  (RunAll Getenv QueryUnescape NewRequest Do Marshal UnmarshalArticles
     utf8_Valid ReplaceAllANSI interleave).

Lemma Scrape_sends_once at_ url : (length (snd (Scrape at_ url)) <= 1)%nat.
Proof.
  unfold Orchestrator.Scrape.
  destruct (QueryUnescape _); [|simpl; lia].
  destruct (NewRequest _ _); simpl; lia.
Qed.

Lemma ConvertToMarkdown_sends_once at_ article :
  (length (snd (ConvertToMarkdown at_ article)) <= 1)%nat.
Proof.
  unfold Orchestrator.ConvertToMarkdown.
  destruct (QueryUnescape _); [|simpl; lia].
  destruct (Marshal _); [|simpl; lia].
  destruct (NewRequest _ _); simpl; lia.
Qed.

Lemma UploadToS3_sends_once at_ markdown category i :
  (length (UploadToS3 at_ markdown category i) <= 1)%nat.
Proof.
  unfold Orchestrator.UploadToS3.
  destruct (QueryUnescape _); [|simpl; lia].
  destruct (NewRequest _ _); simpl; lia.
Qed.

Lemma articleRoutine_ids_NoDup article category i :
  NoDup (articleRoutine article category i).*1.
Proof.
  rewrite OrchestratorFacts.articleRoutine_cases, fmap_app.
  apply NoDup_app. split; [|split].
  - apply NoDup_short. rewrite length_fmap. apply ConvertToMarkdown_sends_once.
  - intros id (ev & -> & Hev)%list_elem_of_fmap (ev' & Heq & Hev')%list_elem_of_fmap.
    pose proof (OrchestratorFacts.ConvertToMarkdown_events Getenv QueryUnescape
                  NewRequest Do Marshal (ConvertCall category i) article) as H1.
    rewrite Forall_forall in H1. specialize (H1 _ Hev).
    destruct (fst (ConvertToMarkdown _ _)) as [markdown|];
      [|by apply elem_of_nil in Hev'].
    pose proof (OrchestratorFacts.UploadToS3_events Getenv QueryUnescape NewRequest
                  utf8_Valid ReplaceAllANSI (S3Call category i) markdown category i)
      as H2.
    rewrite Forall_forall in H2. specialize (H2 _ Hev'). congruence.
  - apply NoDup_short. rewrite length_fmap.
    destruct (fst _); [apply UploadToS3_sends_once | simpl; lia].
Qed.

(** Goroutines of different articles share no call identity. *)
Lemma article_logs_NoDup (articles : list NewsArticle) :
  forall (f : nat -> NewsArticle -> list Event) (tag : nat -> nat),
  (forall i j, tag i = tag j -> i = j) ->
  (forall i x ev, ev ∈ f i x -> id_index (fst ev) = Some (tag i)) ->
  (forall i x, NoDup (f i x).*1) ->
  NoDup (concat (imap f articles)).*1.
Proof.
  induction articles as [|a articles IH]; intros f tag Hinj Htag Hnd;
    [constructor|].
  rewrite imap_cons. simpl. rewrite fmap_app.
  apply NoDup_app. split; [apply Hnd | split].
  - intros id (ev & -> & Hev)%list_elem_of_fmap (ev' & Heq & Hev')%list_elem_of_fmap.
    apply list_elem_of_In, in_concat in Hev' as (log & Hlog & Hin).
    apply list_elem_of_In, elem_of_lookup_imap in Hlog as (j & y & -> & _).
    apply list_elem_of_In in Hin. simpl in Hin.
    apply Htag in Hev, Hin. rewrite Heq, Hin in Hev.
    injection Hev as Hev. by apply Hinj in Hev.
  - apply (IH (f ∘ S) (tag ∘ S)).
    + intros i j H. apply Hinj in H. lia.
    + intros i x ev. apply Htag.
    + intros i x. apply Hnd.
Qed.

Hypothesis interleave_merges : forall logs, interleave logs ≡ₚ concat logs.

Lemma processArticles_ids_NoDup url category :
  NoDup (processArticles url category).*1.
Proof.
  rewrite (OrchestratorFacts.processArticles_cases Getenv QueryUnescape NewRequest
             Do Marshal UnmarshalArticles utf8_Valid ReplaceAllANSI interleave
             interleave_merges).
  rewrite fmap_app. apply NoDup_app. split; [|split].
  - apply NoDup_short. rewrite length_fmap. apply Scrape_sends_once.
  - intros id (ev & -> & Hev)%list_elem_of_fmap (ev' & Heq & Hev')%list_elem_of_fmap.
    pose proof (OrchestratorFacts.Scrape_events Getenv QueryUnescape NewRequest Do
                  UnmarshalArticles (ScrapeCall category) url) as H1.
    rewrite Forall_forall in H1. specialize (H1 _ Hev).
    destruct (fst (Scrape _ _)) as [articles|]; [|by apply elem_of_nil in Hev'].
    apply list_elem_of_In, in_concat in Hev' as (log & Hlog & Hin).
    apply list_elem_of_In, elem_of_lookup_imap in Hlog as (j & y & -> & _).
    apply list_elem_of_In in Hin.
    pose proof (OrchestratorFacts.articleRoutine_events Getenv QueryUnescape
                  NewRequest Do Marshal utf8_Valid ReplaceAllANSI y category j) as H2.
    rewrite Forall_forall in H2. specialize (H2 _ Hin).
    destruct H2; congruence.
  - destruct (fst (Scrape _ _)) as [articles|]; [|constructor].
    apply (article_logs_NoDup articles _ id); [done | | ].
    + intros i x ev Hev.
      pose proof (OrchestratorFacts.articleRoutine_events Getenv QueryUnescape
                    NewRequest Do Marshal utf8_Valid ReplaceAllANSI x category i) as H2.
      rewrite Forall_forall in H2. by destruct (H2 _ Hev) as [-> | ->].
    + intros i x. apply articleRoutine_ids_NoDup.
Qed.

Lemma category_logs_NoDup (l : list (string * string)) :
  NoDup l.*1 ->
  NoDup (concat (map (fun '(category, url) => processArticles url category) l)).*1.
Proof.
  induction l as [|[c url] l IH]; intros Hnd; [constructor|].
  simpl in Hnd. apply NoDup_cons in Hnd as [Hc Hnd].
  simpl. rewrite fmap_app. apply NoDup_app.
  split; [apply processArticles_ids_NoDup | split; [|by apply IH]].
  intros id (ev & -> & Hev)%list_elem_of_fmap (ev' & Heq & Hev')%list_elem_of_fmap.
  apply list_elem_of_In, in_concat in Hev' as (log & Hlog & Hin).
  apply in_map_iff in Hlog as ([c' url'] & <- & Hl).
  apply list_elem_of_In in Hin, Hl.
  pose proof (OrchestratorFacts.processArticles_events Getenv QueryUnescape
                NewRequest Do Marshal UnmarshalArticles utf8_Valid ReplaceAllANSI
                interleave interleave_merges) as Hcat.
  pose proof (Hcat url c) as H1. pose proof (Hcat url' c') as H2.
  rewrite Forall_forall in H1, H2. specialize (H1 _ Hev). specialize (H2 _ Hin).
  unfold event_category in H1, H2. rewrite Heq, H2 in H1.
  assert (c' = c) as -> by congruence.
  apply Hc. apply list_elem_of_fmap. by exists (c, url').
Qed.

(** No call identity occurs twice in the log of a fan-out: every category
    is asked for at most once, and every article is converted at most once
    and uploaded at most once. *)
Theorem RunAll_never_repeats_a_call (categories : gmap string string) :
  NoDup (RunAll categories).*1.
Proof.
  unfold Orchestrator.RunAll. rewrite interleave_merges.
  apply category_logs_NoDup, NoDup_fst_map_to_list.
Qed.


End Service.

End OrchestratorMore.

(** ** More on the transformer *)

Module TransformerMore.
Import Transformer.

Section Service.

Variable Getenv : string -> string.
Variable NewRequest : string -> string -> Result unit.
Variable Do : CallSite -> string -> GPTRequest -> HttpResult.
Variable Unmarshal : string -> option NewsArticle.

Local Abbreviation contentRoutine := (contentRoutine Getenv NewRequest Do).
Local Abbreviation dateRoutine := (dateRoutine Getenv NewRequest Do).
Local Abbreviation transformed := (transformed Getenv NewRequest Do).
Local Abbreviation Handler := (Handler Getenv NewRequest Do Unmarshal).
Local Abbreviation fetch := (fetch Getenv NewRequest Do).

(** The requests of one invocation, and the date field.  A body that does
    not parse is answered 400 without any cleaning request.  For a parsed
    article the date goroutine sends exactly one request, made of the date
    the handler received and the fixed instruction, and the content
    goroutine sends between one and three; the date field becomes the
    answer of its request when that succeeds, and the title is never
    touched.  The status is never 500. *)
Theorem Handler_request_accounting (requestBody : string) :
  StatusCode (response (Handler requestBody)) <> StatusInternalServerError
  /\ (Unmarshal requestBody = None ->
      StatusCode (response (Handler requestBody)) = StatusBadRequest
      /\ contentCalls (Handler requestBody) = []
      /\ dateCalls (Handler requestBody) = [])
  /\ (forall article, Unmarshal requestBody = Some article ->
      dateCalls (Handler requestBody)
      = [(DateStage, mkGPTRequest (Date article) DATE_PROMPT)]
      /\ (1 <= length (contentCalls (Handler requestBody)) <= 3)%nat
      /\ Title (transformed article) = Title article
      /\ (forall r, fetch (dateStage article) = Ok r ->
            Date (transformed article) = r)).
Proof.
  unfold Transformer.Handler.
  destruct (Unmarshal requestBody) as [article|].
  - rewrite TransformerFacts.ConvertToMarkdown_not_empty.
    unfold Transformer.transformed.
    rewrite !TransformerFacts.dateRoutine_cases,
      !TransformerFacts.contentRoutine_cases.
    split; [simpl; discriminate|]. split; [done|]. intros ? [= <-].
    unfold Transformer.transformed.
    rewrite ?TransformerFacts.dateRoutine_cases,
      ?TransformerFacts.contentRoutine_cases.
    split; [done|]. split.
    + destruct (Transformer.fetch _ _ _ (stage1 Getenv article));
        [destruct (Transformer.fetch _ _ _ (stage2 Getenv article))|];
        simpl; lia.
    + split; [done|]. intros r Hr. by rewrite Hr.
  - simpl. split; [discriminate|]. split; [done|]. by intros.
Qed.

End Service.

End TransformerMore.

(** ** More statements at work on the concrete world *)

Module MoreRuns.
Import Example World.

(** A page whose anchors are all well formed: two links out of three, the
    comment link left out. *)
Lemma headlines_of_the_section_page :
  (0 < length ["https://n.news.naver.com/mnews/article/001/1";
               "https://n.news.naver.com/mnews/article/001/2"] <= 5)%nat
  /\ NoDup ["https://n.news.naver.com/mnews/article/001/1";
            "https://n.news.naver.com/mnews/article/001/2"].
Proof.
  destruct (CrawlingFacts.ScrapeHeadlines_when_it_returns base_url detail
              (Crawling.headline_anchors section_page)
              (Ok ["https://n.news.naver.com/mnews/article/001/1";
                   "https://n.news.naver.com/mnews/article/001/2"])
              ltac:(vm_compute; reflexivity)) as [H _].
  destruct (H _ eq_refl) as (Hlen & Hnd & _). by split.
Defined.

(** The extraction service on that page: one of the two articles cannot be
    fetched, the other one is returned. *)
Lemma crawl_returns_one_article :
  exists sectionDoc links scraped,
    Crawling.FetchHTML new_request fetch Crawling.SectionPage
      "https://news.naver.com/section/100" = Returns (Ok sectionDoc)
    /\ Crawling.ScrapeHeadlines base_url detail
         (Crawling.headline_anchors sectionDoc) = Returns (Ok links)
    /\ Crawling.scrape_links new_request fetch trim links = Returns scraped
    /\ (1 <= length (as_they_come scraped) <= 5)%nat.
Proof.
  destruct (CrawlingMore.Handler_answers_with_scraped_articles base_url detail
              new_request fetch trim marshal_articles as_they_come
              ltac:(intros articles; reflexivity)
              "https://news.naver.com/section/100"
              (mkResponse StatusOK "[...]" [("Content-Type", "application/json")])
              None ltac:(vm_compute; reflexivity)) as (_ & _ & H).
  destruct (H ltac:(reflexivity)) as (d & l & sc & H1 & H2 & H3 & _ & H5 & _).
  by exists d, l, sc.
Defined.

(** Two objects of the same day under different headers. *)
Lemma two_articles_two_paths :
  HasPrefix (S3Upload.filename today today "politics_0")
    ("news/" +:+ today +:+ "/") = true
  /\ Publisher.githubFilePath today ("news/" +:+ today +:+ "/")
       (S3Upload.filename today today "politics_0")
     = today +:+ "/" +:+ today +:+ "_" +:+ "politics_0" +:+ ".md".
Proof.
  destruct (PublisherMore.stored_objects_get_paths_of_their_own today
              "politics_0" "politics_1" ltac:(reflexivity) ltac:(reflexivity)
              ltac:(reflexivity)) as (H1 & H2 & _).
  by split.
Defined.

(** The doubled-slash twin is listed last and wins. *)
Lemma twin_listed_last_wins :
  Publisher.collect today get_key "bucket" "news/2025-01-04/"
    ["news/2025-01-04/x.md"; "news/2025-01-04//x.md"]
  !! Publisher.githubFilePath today "news/2025-01-04/" "news/2025-01-04//x.md"
  = Some "news/2025-01-04//x.md".
Proof.
  destruct (PublisherMore.collect_last_listed_wins today get_key "bucket"
              "news/2025-01-04/"
              ["news/2025-01-04/x.md"; "news/2025-01-04//x.md"]) as [_ H].
  apply (H ["news/2025-01-04/x.md"] "news/2025-01-04//x.md" []
           "news/2025-01-04//x.md" ltac:(reflexivity) ltac:(reflexivity)).
  by intros k ?%elem_of_nil.
Defined.

(** No object can be downloaded: the hosting service is left alone. *)
Lemma blind_run_is_noop :
  Publisher.calls blind_run = [] /\ Publisher.github blind_run = "old-head".
Proof.
  destruct (PublisherMore.Handler_uploads_iff_some_download getenv load_config
              today two_pages s3_down (hosting all_up) range_map "old-head"
              [key_a; key_b] Runs.getenv_configured ltac:(reflexivity)
              ltac:(vm_compute; reflexivity)) as [Hiff Hnoop].
  assert (Hcalls : Publisher.calls blind_run = []).
  { apply Hiff. by repeat constructor. }
  split; [exact Hcalls|]. by destruct (Hnoop Hcalls).
Defined.

(** A red word and a reset. *)
Lemma colour_codes_removed :
  Orchestrator.cleanANSI Regexp.ReplaceAllANSI
    ("so " +:+ String Regexp.ESC "[1;31m" +:+ "red")
  = Orchestrator.cleanANSI Regexp.ReplaceAllANSI "so "
    +:+ Orchestrator.cleanANSI Regexp.ReplaceAllANSI "red".
Proof.
  destruct RegexpFacts.cleanANSI_removes_codes as (_ & _ & H).
  exact (H "so " (String Regexp.ESC "[1;31m") "red" ltac:(reflexivity)).
Defined.

(** The fan-out of the concrete world repeats no call. *)
Lemma fanout_repeats_no_call : NoDup fanout.*1.
Proof.
  exact (OrchestratorMore.RunAll_never_repeats_a_call getenv query_unescape
           new_request do_ marshal unmarshal_articles utf8_valid
           replace_all_ansi one_by_one ltac:(intros logs; reflexivity) categories).
Defined.


End MoreRuns.
